(** * Schema reconciliation pipeline (Appathon/Orchestrator.py, Appathon/Eureka/orch.py)

    A shallow embedding of the two scripts of the repository and the
    properties of their field-matching loop, mapping artifact and
    transform stage.

    Text is modelled by [string] with one character per code point
    below 256; Python dictionaries by insertion-ordered association lists
    with unique keys; the file system by a finite map from paths to file
    contents; the chat model, the JSON codec and the pandas CSV codec are
    the operations of a [Platform], over which every definition of the
    pipeline is parametric. *)

From Stdlib Require Import ZArith NArith Ascii String.
From stdpp Require Import base option list strings gmap pretty.

Set Warnings "-register-all".
Local Open Scope string_scope.
Local Open Scope list_scope.

(** ** Python [str] methods used by the scripts *)

Module Text.

(** [c.isspace()] on code points below 256. *)
Definition isspace (c : ascii) : bool :=
  let n := N_of_ascii c in
  (((9 <=? n) && (n <=? 13)) || ((28 <=? n) && (n <=? 32))
   || (n =? 133) || (n =? 160))%N.

(** Cased upper-case letters below 256: A-Z, and the Latin-1 range
    0xC0-0xDE without the multiplication sign 0xD7. *)
Definition isupper (c : ascii) : bool :=
  let n := N_of_ascii c in
  (((65 <=? n) && (n <=? 90))
   || ((192 <=? n) && (n <=? 222) && negb (n =? 215)))%N.

Definition lower_char (c : ascii) : ascii :=
  if isupper c then ascii_of_N (N_of_ascii c + 32) else c.

(** [s.lower()] *)
Fixpoint lower (s : string) : string :=
  match s with
  | EmptyString => EmptyString
  | String c s' => String (lower_char c) (lower s')
  end.

(** [s.lstrip()] *)
Fixpoint lstrip (s : string) : string :=
  match s with
  | EmptyString => EmptyString
  | String c s' => if isspace c then lstrip s' else s
  end.

(** [s.rstrip()] *)
Fixpoint rstrip (s : string) : string :=
  match s with
  | EmptyString => EmptyString
  | String c s' =>
      match rstrip s' with
      | EmptyString => if isspace c then EmptyString else String c EmptyString
      | r => String c r
      end
  end.

(** [s.strip()] *)
Definition strip (s : string) : string := rstrip (lstrip s).

(** A text that does not start with white space: empty, or its first
    character is no white space. *)
Definition clean_start (s : string) : Prop :=
  match s with
  | EmptyString => True
  | String c _ => isspace c = false
  end.

(** The quotation mark and the line feed, for the literals that
    contain them. *)
Definition dq : string := String "034"%char EmptyString.
Definition nl : string := String "010"%char EmptyString.

(** [sep.join(parts)] *)
Fixpoint join (sep : string) (parts : list string) : string :=
  match parts with
  | [] => ""
  | [p] => p
  | p :: ps => p +:+ sep +:+ join sep ps
  end.

End Text.

(** ** Python [dict]: insertion-ordered, keys unique *)

Section dict.
Context {K V : Type} `{EqDecision K}.

(** [d.get(k)]; [k in d] is [is_Some (dict_get k d)]. *)
Fixpoint dict_get (k : K) (d : list (K * V)) : option V :=
  match d with
  | [] => None
  | (k', v) :: d' => if decide (k = k') then Some v else dict_get k d'
  end.

(** [d[k] = v]: an existing key keeps its position, a new key goes
    last. *)
Fixpoint dict_set (k : K) (v : V) (d : list (K * V)) : list (K * V) :=
  match d with
  | [] => [(k, v)]
  | (k', v') :: d' =>
      if decide (k = k') then (k, v) :: d' else (k', v') :: dict_set k v d'
  end.

(** [dict(pairs)] *)
Definition dict_of_pairs (pairs : list (K * V)) : list (K * V) :=
  foldl (λ d kv, dict_set kv.1 kv.2 d) [] pairs.

Definition dict_keys (d : list (K * V)) : list K := d.*1.

End dict.

Abbreviation dict K V := (list (K * V)) (only parsing).

(** ** Values *)

(** A cell or a label of a pandas table after [read_csv]: text, or a
    value of one of the inferred dtypes.  A float is kept as its
    IEEE-754 binary64 bit pattern. *)
Inductive scalar :=
  | SStr (s : string)
  | SInt (z : Z)
  | SFloat (bits : N)
  | SBool (b : bool).

#[global] Instance scalar_eq_dec : EqDecision scalar.
Proof. solve_decision. Defined.

(** [numpy.nan], the missing-value marker of pandas. *)
Definition NaN : scalar := SFloat 0x7ff8000000000000.

(** A Python object as [json.loads] builds it. *)
Inductive pyval :=
  | PyNone
  | PyBool (b : bool)
  | PyInt (z : Z)
  | PyFloat (bits : N)
  | PyStr (s : string)
  | PyList (items : list pyval)
  | PyDict (items : list (string * pyval)).

Definition py_of_scalar (x : scalar) : pyval :=
  match x with
  | SStr s => PyStr s
  | SInt z => PyInt z
  | SFloat b => PyFloat b
  | SBool b => PyBool b
  end.

(** ** pandas tables *)

(** A table: column labels and the rows, each with one cell per
    column. *)
Record DataFrame (L C : Type) := mkDataFrame {
  columns : list L;
  values : list (list C)
}.
Arguments mkDataFrame {L C} _ _.
Arguments columns {L C} _.
Arguments values {L C} _.

(** [df.empty] *)
Definition df_empty {L C} (df : DataFrame L C) : bool :=
  match columns df, values df with
  | [], _ | _, [] => true
  | _, _ => false
  end.

(** Position of a label among the columns. *)
Fixpoint label_index {L} `{EqDecision L} (l : L) (cols : list L) : option nat :=
  match cols with
  | [] => None
  | c :: cols' => if decide (l = c) then Some 0 else S <$> label_index l cols'
  end.

(** [df.rename(columns=mapper)] with a dictionary: a label that is a
    key of [mapper] is replaced by the value, any other label is kept;
    the cells are not touched.  The labels of a table that was read from a
    file are text, and a text label is equal to no key that is a number, a
    truth value or [NaN]. *)
Definition rename (mapper : dict scalar scalar) (df : DataFrame string scalar)
  : DataFrame scalar scalar :=
  mkDataFrame
    (map (λ c, match dict_get (SStr c) mapper with
               | Some t => t
               | None => SStr c
               end) (columns df))
    (values df).

(** [pd.DataFrame(d.items(), columns=[a, b])] *)
Definition DataFrame_of_items (a b : string) (d : dict string pyval)
  : DataFrame scalar pyval :=
  mkDataFrame [SStr a; SStr b] (map (λ kv, [PyStr kv.1; kv.2]) d).

(** The table as [to_csv] receives it after a [read_csv]. *)
Definition as_objects (df : DataFrame scalar scalar) : DataFrame scalar pyval :=
  mkDataFrame (columns df) (map (map py_of_scalar) (values df)).

(** ** Exceptions and results *)

Inductive exn :=
  | FileNotFoundError (msg : string)
  | KeyError (key : string)
  | ValueError (msg : string)
  | EmptyDataError
  | ParserError (msg : string)
  | UnicodeDecodeError
  | GraphRecursionError.

Inductive Result (A : Type) :=
  | Ok (a : A)
  | Raise (e : exn).
Arguments Ok {A} _.
Arguments Raise {A} _.

(** ** The platform: chat model, JSON codec, pandas CSV codec

    The libraries the scripts call are not part of the repository.  They
    enter as the operations below, each a function of its arguments (the
    chat model also of its own state, so that it may answer the same
    prompt differently from call to call); a call of the chat model always
    returns a text.  Nothing else is assumed of them: what is proved of the
    pipeline holds for every chat model and every codec. *)

Class Platform := {
  (** state of the chat-model client *)
  LLM : Type;
  (** [llm.invoke([HumanMessage(content=prompt)]).content] *)
  llm_invoke : LLM → string → string * LLM;
  (** [json.loads]; [None] stands for [json.JSONDecodeError] *)
  json_loads : string → option pyval;
  (** [json.dumps(d, indent=4)] *)
  json_dumps : dict string string → string;
  (** [str(x)] on a cell; [repr] of a list of cells and of a dictionary
      of cells *)
  py_str : scalar → string;
  repr_list : list scalar → string;
  repr_dict : dict scalar scalar → string;
  (** [pd.read_csv] on the bytes of a file, with the given encoding *)
  read_csv : string → string → Result (DataFrame string scalar);
  (** [pd.DataFrame(...).to_csv(index=False)]: the text written *)
  to_csv : DataFrame scalar pyval → string
}.

(** ** The world the scripts run in *)

Section World.
Context `{Platform}.

Record World := mkWorld {
  fs : gmap string string;   (* path -> contents *)
  stdout : list string;      (* lines printed, oldest first *)
  llm : LLM
}.

(** Computations that read and change the world and may raise. *)
Definition M (A : Type) : Type := World → Result A * World.

Definition ret {A} (a : A) : M A := λ w, (Ok a, w).

Definition bind {A B} (m : M A) (k : A → M B) : M B :=
  λ w, match m w with
       | (Ok a, w') => k a w'
       | (Raise e, w') => (Raise e, w')
       end.

Definition raise {A} (e : exn) : M A := λ w, (Raise e, w).

(** [print(line)] *)
Definition print (line : string) : M unit :=
  λ w, (Ok tt, mkWorld (fs w) (stdout w ++ [line]) (llm w)).

(** [os.path.exists(path)] *)
Definition path_exists (path : string) : M bool :=
  λ w, (Ok (bool_decide (is_Some (fs w !! path))), w).

(** [pd.read_csv(path, encoding=encoding)] *)
Definition pd_read_csv (path encoding : string) : M (DataFrame string scalar) :=
  λ w, match fs w !! path with
       | None =>
           (Raise (FileNotFoundError
                     ("[Errno 2] No such file or directory: '" +:+ path +:+ "'")), w)
       | Some text => (read_csv encoding text, w)
       end.

(** [df.to_csv(path, index=False)] *)
Definition df_to_csv (path : string) (df : DataFrame scalar pyval) : M unit :=
  λ w, (Ok tt, mkWorld (<[path := to_csv df]> (fs w)) (stdout w) (llm w)).

(** [llm.invoke(messages).content] *)
Definition invoke (prompt : string) : M string :=
  λ w, let '(content, l) := llm_invoke (llm w) prompt in
       (Ok content, mkWorld (fs w) (stdout w) l).

(** [df[label]]: the cells of one column, top to bottom; pandas keeps
    tables rectangular, a missing cell is [NaN]. *)
Definition getitem (df : DataFrame string scalar) (label : string)
  : M (list scalar) :=
  match label_index label (columns df) with
  | None => raise (KeyError label)
  | Some i => ret (map (λ row, nth i row NaN) (values df))
  end.
End World.


(** stdpp's notations [x ← m; k] and [m;; k] for [M]. *)
#[global] Instance M_ret `{Platform} : MRet M := @ret _.
#[global] Instance M_bind `{Platform} : MBind M := λ A B k m, bind m k.

(** ** langgraph's [StateGraph], as far as the scripts use it *)

Section Graph.
Context `{Platform} {St : Type}.

Record StateGraph := mkStateGraph {
  nodes : dict string (St → M St);
  edges : list (string * string);
  entry_point : option string
}.

Definition END : string := "__end__".

Definition new_graph : StateGraph := mkStateGraph [] [] None.

Definition add_node (name : string) (fn : St → M St) (g : StateGraph) :=
  mkStateGraph (dict_set name fn (nodes g)) (edges g) (entry_point g).

Definition add_edge (src dst : string) (g : StateGraph) :=
  mkStateGraph (nodes g) (edges g ++ [(src, dst)]) (entry_point g).

Definition set_entry_point (name : string) (g : StateGraph) :=
  mkStateGraph (nodes g) (edges g) (Some name).

(** One node after the other along the edges, each node receiving the
    state its predecessor returned, until [END]; an exception raised by
    a node ends the run. *)
Fixpoint run (fuel : nat) (g : StateGraph) (name : string) (state : St) : M St :=
  if decide (name = END) then mret state else
  match fuel with
  | 0 => raise GraphRecursionError
  | S fuel' =>
      match dict_get name (nodes g) with
      | None => raise (ValueError ("unknown node " +:+ name))
      | Some fn =>
          state' ← fn state;
          match dict_get name (edges g) with
          | Some next => run fuel' g next state'
          | None => mret state'
          end
      end
  end.

Definition recursion_limit : nat := 25.

(** [workflow.compile().invoke(state)] *)
Definition graph_invoke (g : StateGraph) (state : St) : M St :=
  match entry_point g with
  | None => raise (ValueError "graph has no entry point")
  | Some start => run recursion_limit g start state
  end.
End Graph.
Arguments StateGraph {_} St.

(** ** Appathon/Orchestrator.py *)

Module Orchestrator.
Section Orchestrator.
Context `{Platform}.

Record FieldMappingState := mkState {
  field_maps : dict string (dict string pyval);
  analysis_complete : bool;
  etl_complete : bool;
  current_vendor : string;
  vendor_headers : list string;
  vendor_samples : list scalar;
  target_headers : list string;
  target_samples : list scalar;
  transformed_data : string
}.

(** [state['field_maps'][vendor] = m] *)
Definition set_field_map (vendor : string) (m : dict string pyval)
    (s : FieldMappingState) : FieldMappingState :=
  mkState (dict_set vendor m (field_maps s)) (analysis_complete s)
    (etl_complete s) (current_vendor s) (vendor_headers s) (vendor_samples s)
    (target_headers s) (target_samples s) (transformed_data s).

(** [state['analysis_complete'] = True] *)
Definition set_analysis_complete (s : FieldMappingState) : FieldMappingState :=
  mkState (field_maps s) true (etl_complete s) (current_vendor s)
    (vendor_headers s) (vendor_samples s) (target_headers s)
    (target_samples s) (transformed_data s).

(** [state['etl_complete'] = True; state['transformed_data'] = f] *)
Definition set_etl_complete (f : string) (s : FieldMappingState)
  : FieldMappingState :=
  mkState (field_maps s) (analysis_complete s) true (current_vendor s)
    (vendor_headers s) (vendor_samples s) (target_headers s)
    (target_samples s) f.

(** [read_csv_schema]: the headers, a sample row, the table. *)
Definition read_csv_schema (file_path : string)
  : M (list string * list scalar * DataFrame string scalar) :=
  df ← pd_read_csv file_path "utf-8";
  let headers := columns df in
  let sample_row :=
    if df_empty df then replicate (length headers) (SStr "")
    else match values df with
         | row :: _ => row
         | [] => []
         end in
  mret (headers, sample_row, df).

(** The prompt of one inference request. *)
Definition prompt_for (vendor_field : string)
    (target_fields target_definitions : list string) : string :=
  "Match the vendor field '" +:+ vendor_field
  +:+ "' with the most relevant target field." +:+ Text.nl
  +:+ "        Target fields and descriptions:" +:+ Text.nl
  +:+ "        "
  +:+ json_dumps (dict_of_pairs (zip target_fields target_definitions))
  +:+ Text.nl
  +:+ "        Return a JSON mapping vendor field to target field.".

(** Body of the loop of [analyze_fields], for one vendor field. *)
Definition analyze_field (target_fields target_definitions : list string)
    (vendor_field : string) (field_mappings : dict string pyval)
  : M (dict string pyval) :=
  content ← invoke (prompt_for vendor_field target_fields target_definitions);
  match json_loads content with
  | Some (PyDict mapping) =>
      match dict_get vendor_field mapping with
      | Some target => mret (dict_set vendor_field target field_mappings)
      | None => mret field_mappings
      end
  | Some _ => mret field_mappings
  | None =>
      print ("Invalid JSON response for " +:+ vendor_field +:+ ": " +:+ content);;
      mret field_mappings
  end.

(** [for vendor_field in vendor_fields: ...] *)
Fixpoint analyze_loop (target_fields target_definitions : list string)
    (vendor_fields : list string) (field_mappings : dict string pyval)
  : M (dict string pyval) :=
  match vendor_fields with
  | [] => mret field_mappings
  | vendor_field :: rest =>
      field_mappings' ←
        analyze_field target_fields target_definitions vendor_field field_mappings;
      analyze_loop target_fields target_definitions rest field_mappings'
  end.

Definition mapping_file_of (vendor : string) : string := vendor +:+ "_mappings.csv".
Definition output_file_of (vendor : string) : string := vendor +:+ "_transformed.csv".

(** The table [analyze_fields] writes for a mapping. *)
Definition mapping_frame (field_mappings : dict string pyval) :=
  DataFrame_of_items "vendor_field" "target_field" field_mappings.

(** Saving the mapping ([analyze_fields], lines 70-72): one row per
    entry, in a file named after the vendor. *)
Definition persist (vendor : string) (field_mappings : dict string pyval)
  : M unit :=
  df_to_csv (mapping_file_of vendor) (mapping_frame field_mappings).

Definition analyze_fields (state : FieldMappingState) : M FieldMappingState :=
  let vendor_fields := vendor_headers state in
  let target_fields := target_headers state in
  let target_definitions := map py_str (target_samples state) in
  field_mappings ← analyze_loop target_fields target_definitions vendor_fields [];
  let state := set_field_map (current_vendor state) field_mappings state in
  let mapping_file := mapping_file_of (current_vendor state) in
  persist (current_vendor state) field_mappings;;
  print ("Mapping template saved: " +:+ mapping_file);;
  mret (set_analysis_complete state).

Definition vendor_file : string := "vendor.csv".

Definition vendor_file_missing : exn :=
  FileNotFoundError ("Vendor data file '" +:+ vendor_file
                     +:+ "' not found. Check working directory.").

Definition mapping_file_missing (mapping_file : string) : exn :=
  FileNotFoundError ("Field mapping file '" +:+ mapping_file
                     +:+ "' not found. Run analysis first.").

(** Reading the mapping back ([perform_etl], lines 92-94). *)
Definition load (vendor : string) : M (dict scalar scalar) :=
  mapping_df ← pd_read_csv (mapping_file_of vendor) "utf-8";
  vendor_field ← getitem mapping_df "vendor_field";
  target_field ← getitem mapping_df "target_field";
  mret (dict_of_pairs (zip vendor_field target_field)).

Definition perform_etl (state : FieldMappingState) : M FieldMappingState :=
  let mapping_file := mapping_file_of (current_vendor state) in
  let output_file := output_file_of (current_vendor state) in
  source_exists ← path_exists vendor_file;
  if negb source_exists then raise vendor_file_missing else
  mapping_exists ← path_exists mapping_file;
  if negb mapping_exists then raise (mapping_file_missing mapping_file) else
  vendor_df ← pd_read_csv vendor_file "utf-8";
  field_mapping ← load (current_vendor state);
  let transformed_df := rename field_mapping vendor_df in
  df_to_csv output_file (as_objects transformed_df);;
  print ("ETL completed: Transformed data saved to " +:+ output_file);;
  mret (set_etl_complete output_file state).

(** The two-node workflow: analyze_fields, then perform_etl, then END. *)
Definition workflow : StateGraph FieldMappingState :=
  set_entry_point "analyze_fields"
    (add_edge "perform_etl" END
       (add_edge "analyze_fields" "perform_etl"
          (add_node "perform_etl" perform_etl
             (add_node "analyze_fields" analyze_fields new_graph)))).

(** [h.strip().lower()] *)
Definition normalize (h : string) : string := Text.lower (Text.strip h).

(** The state [generate_mapping_template] hands to the workflow. *)
Definition initial_state (vendor_name : string)
    (vendor_headers : list string) (vendor_samples : list scalar)
    (target_headers : list string) (target_samples : list scalar)
  : FieldMappingState :=
  mkState [] false false vendor_name vendor_headers vendor_samples
    target_headers target_samples "".

(** Schema reading and header normalisation, up to the initial state. *)
Definition prepare_state (vendor_file target_file vendor_name : string)
  : M FieldMappingState :=
  '(vendor_headers, vendor_samples, _) ← read_csv_schema vendor_file;
  '(target_headers, target_samples, _) ← read_csv_schema target_file;
  let vendor_headers := map normalize vendor_headers in
  mret (initial_state vendor_name vendor_headers vendor_samples
          target_headers target_samples).

Definition generate_mapping_template (vendor_file target_file vendor_name : string)
  : M string :=
  state ← prepare_state vendor_file target_file vendor_name;
  final_state ← graph_invoke workflow state;
  mret (transformed_data final_state).

(** The script as a whole: the credential is looked up first, and without
    it nothing runs. *)
Definition main (OPENAI_API_KEY : option string) : M string :=
  match OPENAI_API_KEY with
  | None | Some EmptyString =>
      raise (ValueError "OPENAI_API_KEY not found in environment variables")
  | Some _ => generate_mapping_template "column.csv" "customers.csv" "Vendor_A"
  end.

(** *** The transform as a function of its two input files *)

(** The dictionary [load] builds from the mapping table. *)
Definition mapping_of_frame (mapping_df : DataFrame string scalar)
  : Result (dict scalar scalar) :=
  match label_index "vendor_field" (columns mapping_df) with
  | None => Raise (KeyError "vendor_field")
  | Some i =>
      match label_index "target_field" (columns mapping_df) with
      | None => Raise (KeyError "target_field")
      | Some j =>
          Ok (dict_of_pairs
                (zip (map (λ row, nth i row NaN) (values mapping_df))
                     (map (λ row, nth j row NaN) (values mapping_df))))
      end
  end.

(** The table [perform_etl] writes, or the exception it raises, given
    the contents of the vendor data file and of the mapping file
    ([None]: no such file). *)
Definition transform (vendor : string) (source mapping : option string)
  : Result (DataFrame scalar scalar) :=
  match source with
  | None => Raise vendor_file_missing
  | Some source_text =>
      match mapping with
      | None => Raise (mapping_file_missing (mapping_file_of vendor))
      | Some mapping_text =>
          match read_csv "utf-8" source_text with
          | Raise e => Raise e
          | Ok vendor_df =>
              match read_csv "utf-8" mapping_text with
              | Raise e => Raise e
              | Ok mapping_df =>
                  match mapping_of_frame mapping_df with
                  | Raise e => Raise e
                  | Ok field_mapping => Ok (rename field_mapping vendor_df)
                  end
              end
          end
      end
  end.

(** *** The matching loop, call by call *)

(** What one answer of the chat model yields for the queried field: the
    target it names, or nothing when the answer does not decode, is not
    a dictionary, or has no entry for the field. *)
Definition outcome (vendor_field content : string) : option pyval :=
  match json_loads content with
  | Some (PyDict mapping) => dict_get vendor_field mapping
  | _ => None
  end.

(** The answers the chat model gives to the requests of the loop, in
    order, and the chat model after the last of them. *)
Fixpoint responses (target_fields target_definitions vendor_fields : list string)
    (l : LLM) : list string :=
  match vendor_fields with
  | [] => []
  | vendor_field :: rest =>
      let '(content, l') :=
        llm_invoke l (prompt_for vendor_field target_fields target_definitions) in
      content :: responses target_fields target_definitions rest l'
  end.

Fixpoint llm_after (target_fields target_definitions vendor_fields : list string)
    (l : LLM) : LLM :=
  match vendor_fields with
  | [] => l
  | vendor_field :: rest =>
      llm_after target_fields target_definitions rest
        (llm_invoke l (prompt_for vendor_field target_fields target_definitions)).2
  end.

(** The entries the answers contribute, field by field. *)
Fixpoint collect (calls : list (string * string)) (field_mappings : dict string pyval)
  : dict string pyval :=
  match calls with
  | [] => field_mappings
  | (vendor_field, content) :: rest =>
      collect rest
        match outcome vendor_field content with
        | Some target => dict_set vendor_field target field_mappings
        | None => field_mappings
        end
  end.


(** The calls of one run of [analyze_fields]. *)
Definition calls_of (state : FieldMappingState) (w : World)
  : list (string * string) :=
  zip (vendor_headers state)
    (responses (target_headers state) (map py_str (target_samples state))
       (vendor_headers state) (llm w)).


(** The line printed for an answer that does not decode. *)
Definition invalid_json_line (call : string * string) : string :=
  "Invalid JSON response for " +:+ call.1 +:+ ": " +:+ call.2.

(** The lines the loop prints: one for each answer that does not decode,
    in the order of the calls. *)
Definition diagnostics (calls : list (string * string)) : list string :=
  invalid_json_line <$> filter (λ call, json_loads call.2 = None) calls.

End Orchestrator.
End Orchestrator.

(** ** Appathon/Eureka/orch.py *)

Module Eureka.
Section Eureka.
Context `{Platform}.

Record FieldMappingState := mkState {
  field_maps : dict string pyval;
  analysis_complete : bool;
  current_vendor : string;
  vendor_fields : list scalar;
  target_descriptions : dict scalar scalar
}.

Definition read_vendor_schema (file_path : string) : M (list scalar) :=
  df ← pd_read_csv file_path "iso-8859-1";
  getitem df "Field Name".

Definition read_customer_schema (file_path : string) : M (dict scalar scalar) :=
  df ← pd_read_csv file_path "iso-8859-1";
  names ← getitem df "Field Name";
  definitions ← getitem df "Business Definition";
  mret (dict_of_pairs (zip names definitions)).

(** The single prompt, naming every vendor field. *)
Definition prompt_for (state : FieldMappingState) : string :=
  "Match vendor fields to customer fields based on meaning:" +:+ Text.nl
  +:+ "    Vendor fields: " +:+ repr_list (vendor_fields state) +:+ Text.nl
  +:+ "    Customer fields with descriptions: "
  +:+ repr_dict (target_descriptions state) +:+ Text.nl
  +:+ Text.nl
  +:+ "    Return a JSON object in this format:" +:+ Text.nl
  +:+ "    {" +:+ Text.nl
  +:+ "        " +:+ Text.dq +:+ "vendor_field_1" +:+ Text.dq +:+ ": "
  +:+ Text.dq +:+ "customer_field_1" +:+ Text.dq +:+ "," +:+ Text.nl
  +:+ "        " +:+ Text.dq +:+ "vendor_field_2" +:+ Text.dq +:+ ": "
  +:+ Text.dq +:+ "customer_field_2" +:+ Text.dq +:+ Text.nl
  +:+ "    }" +:+ Text.nl
  +:+ "    ".

Definition mapping_file_of (vendor : string) : string := vendor +:+ "_mappings.csv".

Definition analyze_fields (state : FieldMappingState) : M FieldMappingState :=
  content ← invoke (prompt_for state);
  mappings ←
    match json_loads content with
    | Some (PyDict mappings) => mret mappings
    | Some _ => raise (ValueError "Response is not a valid dictionary.")
    | None => raise (ValueError ("Invalid JSON response from LLM: " +:+ content))
    end;
  let mapping_file := mapping_file_of (current_vendor state) in
  df_to_csv mapping_file
    (DataFrame_of_items "Vendor Field" "Customer Field" mappings);;
  print ("Mapping template saved: " +:+ mapping_file);;
  mret (mkState mappings true (current_vendor state) (vendor_fields state)
          (target_descriptions state)).

Definition workflow : StateGraph FieldMappingState :=
  add_edge "analyze_fields" END
    (set_entry_point "analyze_fields"
       (add_node "analyze_fields" analyze_fields new_graph)).

(** Schema reading, up to the state handed to the workflow. *)
Definition prepare_state (vendor_file customer_file vendor_name : string)
  : M FieldMappingState :=
  vendor_fields ← read_vendor_schema vendor_file;
  target_schema ← read_customer_schema customer_file;
  mret (mkState [] false vendor_name vendor_fields target_schema).

Definition generate_mapping_template (vendor_file customer_file vendor_name : string)
  : M string :=
  state ← prepare_state vendor_file customer_file vendor_name;
  final_state ← graph_invoke workflow state;
  mret (vendor_name +:+ "_mappings.csv").

Definition main (OPENAI_API_KEY : option string) : M string :=
  match OPENAI_API_KEY with
  | None | Some EmptyString =>
      raise (ValueError "OPENAI_API_KEY not found in environment variables")
  | Some _ =>
      generate_mapping_template "../csv/vendor_input_format.csv"
        "../csv/sample.csv" "Vendor_A"
  end.
End Eureka.
End Eureka.

(** ** A small platform for the worked examples

    A scripted chat model, a decoder for flat JSON objects, and a CSV
    codec for text tables that follows pandas' defaults: comma-separated
    fields, minimal quoting, blank lines skipped, and the default
    missing-value tokens read back as [NaN].  Numeric and boolean dtype
    inference is not reproduced, so the examples use text cells only. *)

Module Fixture.

(** *** Scripted chat model: answers in order, then empty answers *)

Definition scripted_invoke (script : list string) (prompt : string)
  : string * list string :=
  match script with
  | answer :: rest => (answer, rest)
  | [] => ("", [])
  end.

(** *** JSON: objects and arrays of strings and literals, no escapes *)

Inductive token :=
  | LBRACE | RBRACE | LBRACK | RBRACK | COLON | COMMA
  | STR (s : string)
  | WORD (s : string).

Inductive lex_mode :=
  | Idle
  | InStr (acc : string)
  | InWord (acc : string).

Definition is_letter (c : ascii) : bool :=
  let n := N_of_ascii c in ((97 <=? n) && (n <=? 122))%N.

Definition punct (c : ascii) : option token :=
  if decide (c = "{"%char) then Some LBRACE
  else if decide (c = "}"%char) then Some RBRACE
  else if decide (c = "["%char) then Some LBRACK
  else if decide (c = "]"%char) then Some RBRACK
  else if decide (c = ":"%char) then Some COLON
  else if decide (c = ","%char) then Some COMMA
  else None.

Definition snoc_char (s : string) (c : ascii) : string :=
  s +:+ String c EmptyString.

Fixpoint lex (s : string) (mode : lex_mode) : option (list token) :=
  match s with
  | EmptyString =>
      match mode with
      | Idle => Some []
      | InStr _ => None
      | InWord w => Some [WORD w]
      end
  | String c s' =>
      match mode with
      | InStr acc =>
          if decide (c = "034"%char) then (STR acc ::.) <$> lex s' Idle
          else if decide (c = "\"%char) then None
          else lex s' (InStr (snoc_char acc c))
      | InWord w =>
          if is_letter c then lex s' (InWord (snoc_char w c))
          else if Text.isspace c then (WORD w ::.) <$> lex s' Idle
          else match punct c with
               | Some t => (λ ts, WORD w :: t :: ts) <$> lex s' Idle
               | None => None
               end
      | Idle =>
          if Text.isspace c then lex s' Idle
          else if decide (c = "034"%char) then lex s' (InStr "")
          else if is_letter c then lex s' (InWord (String c EmptyString))
          else match punct c with
               | Some t => (t ::.) <$> lex s' Idle
               | None => None
               end
      end
  end.

(** A string or one of the three literals. *)
Definition atom (t : token) : option pyval :=
  match t with
  | STR s => Some (PyStr s)
  | WORD w =>
      if decide (w = "null") then Some PyNone
      else if decide (w = "true") then Some (PyBool true)
      else if decide (w = "false") then Some (PyBool false)
      else None
  | _ => None
  end.

(** Members of an object after the opening brace; a repeated key keeps
    its last value. *)
Fixpoint members (ts : list token) (acc : dict string pyval)
  : option (dict string pyval) :=
  match ts with
  | STR k :: COLON :: v :: rest =>
      match atom v with
      | Some x =>
          match rest with
          | [RBRACE] => Some (dict_set k x acc)
          | COMMA :: rest' => members rest' (dict_set k x acc)
          | _ => None
          end
      | None => None
      end
  | _ => None
  end.

(** Elements of an array after the opening bracket. *)
Fixpoint elements (ts : list token) : option (list pyval) :=
  match ts with
  | v :: rest =>
      match atom v with
      | Some x =>
          match rest with
          | [RBRACK] => Some [x]
          | COMMA :: rest' => (x ::.) <$> elements rest'
          | _ => None
          end
      | None => None
      end
  | [] => None
  end.

Definition loads (s : string) : option pyval :=
  match lex s Idle with
  | Some [LBRACE; RBRACE] => Some (PyDict [])
  | Some (LBRACE :: ts) => PyDict <$> members ts []
  | Some [LBRACK; RBRACK] => Some (PyList [])
  | Some (LBRACK :: ts) => PyList <$> elements ts
  | Some [t] => atom t
  | _ => None
  end.

Definition quoted (s : string) : string := Text.dq +:+ s +:+ Text.dq.

Definition dumps (d : dict string string) : string :=
  match d with
  | [] => "{}"
  | _ =>
      "{" +:+ Text.nl
      +:+ Text.join ("," +:+ Text.nl)
            (map (λ kv, "    " +:+ quoted kv.1 +:+ ": " +:+ quoted kv.2) d)
      +:+ Text.nl +:+ "}"
  end.

(** *** Cells as text *)

Definition scalar_text (x : scalar) : string :=
  match x with
  | SStr s => s
  | SInt z => pretty z
  | SBool true => "True"
  | SBool false => "False"
  | SFloat _ => "nan"
  end.

(** A cell as [to_csv] writes it; a missing value ([None], [NaN]) is
    the empty field.  Other floats and nested containers do not occur
    in the examples and are written like a missing value. *)
Definition cell_text (x : pyval) : string :=
  match x with
  | PyStr s => s
  | PyInt z => pretty z
  | PyBool true => "True"
  | PyBool false => "False"
  | _ => ""
  end.

Definition label_text (x : scalar) : string :=
  match x with
  | SFloat _ => ""
  | _ => scalar_text x
  end.

Fixpoint double_quotes (s : string) : string :=
  match s with
  | EmptyString => EmptyString
  | String c s' =>
      if decide (c = "034"%char) then String c (String c (double_quotes s'))
      else String c (double_quotes s')
  end.

Fixpoint needs_quotes (s : string) : bool :=
  match s with
  | EmptyString => false
  | String c s' =>
      bool_decide (c = ","%char ∨ c = "034"%char ∨ c = "010"%char ∨ c = "013"%char)
      || needs_quotes s'
  end.

(** csv.QUOTE_MINIMAL *)
Definition field (s : string) : string :=
  if needs_quotes s then quoted (double_quotes s) else s.

Definition line (fields : list string) : string :=
  Text.join "," (map field fields) +:+ Text.nl.

Definition write_table (df : DataFrame scalar pyval) : string :=
  line (map label_text (columns df))
  +:+ foldr (λ row text, line (map cell_text row) +:+ text) "" (values df).

(** *** Reading *)

Inductive scan_mode := Unquoted | Quoted | QuoteSeen.

(** Records of a CSV text; [cur] and [row] are the field and the
    record being read. *)
Fixpoint records (s : string) (mode : scan_mode) (cur : string)
    (row : list string) : list (list string) :=
  match s with
  | EmptyString =>
      match mode, cur, row with
      | Unquoted, EmptyString, [] => []
      | _, _, _ => [(row ++ [cur])]
      end
  | String c s' =>
      match mode with
      | Quoted =>
          if decide (c = "034"%char) then records s' QuoteSeen cur row
          else records s' Quoted (snoc_char cur c) row
      | _ =>
          if decide (c = "034"%char) then
            match mode with
            | QuoteSeen => records s' Quoted (snoc_char cur c) row
            | _ => records s' Quoted cur row
            end
          else if decide (c = ","%char) then records s' Unquoted "" (row ++ [cur])
          else if bool_decide (c = "010"%char ∨ c = "013"%char) then
            match mode, cur, row with
            | Unquoted, EmptyString, [] => records s' Unquoted "" []
            | _, _, _ => (row ++ [cur]) :: records s' Unquoted "" []
            end
          else records s' Unquoted (snoc_char cur c) row
      end
  end.

(** The default [na_values] of [pd.read_csv]. *)
Definition na_values : list string :=
  [""; "#N/A"; "#N/A N/A"; "#NA"; "-1.#IND"; "-1.#QNAN"; "-NaN"; "-nan";
   "1.#IND"; "1.#QNAN"; "<NA>"; "N/A"; "NA"; "NULL"; "NaN"; "None"; "n/a";
   "nan"; "null"].

Definition read_cell (s : string) : scalar :=
  if bool_decide (s ∈ na_values) then NaN else SStr s.

(** One data record under a header of [n] columns: short records are
    filled with [NaN], long ones are a parser error. *)
Definition read_row (n : nat) (record : list string) : Result (list scalar) :=
  if decide (n < length record)%nat then
    Raise (ParserError "Error tokenizing data")
  else Ok (map read_cell record ++ replicate (n - length record) NaN).

Fixpoint read_rows (n : nat) (rs : list (list string)) : Result (list (list scalar)) :=
  match rs with
  | [] => Ok []
  | r :: rs' =>
      match read_row n r, read_rows n rs' with
      | Ok row, Ok rows => Ok (row :: rows)
      | Raise e, _ | _, Raise e => Raise e
      end
  end.

Definition read_table (encoding text : string) : Result (DataFrame string scalar) :=
  match records text Unquoted "" [] with
  | [] => Raise EmptyDataError
  | header :: rs =>
      match read_rows (length header) rs with
      | Ok rows => Ok (mkDataFrame header rows)
      | Raise e => Raise e
      end
  end.

(** *** [repr] of cells *)

Definition scalar_repr (x : scalar) : string :=
  match x with
  | SStr s => "'" +:+ s +:+ "'"
  | _ => scalar_text x
  end.

Definition list_repr (l : list scalar) : string :=
  "[" +:+ Text.join ", " (map scalar_repr l) +:+ "]".

Definition dict_repr (d : dict scalar scalar) : string :=
  "{" +:+ Text.join ", "
            (map (λ kv, scalar_repr kv.1 +:+ ": " +:+ scalar_repr kv.2) d)
  +:+ "}".

Definition platform : Platform := {|
  LLM := list string;
  llm_invoke := scripted_invoke;
  json_loads := loads;
  json_dumps := dumps;
  py_str := scalar_text;
  repr_list := list_repr;
  repr_dict := dict_repr;
  read_csv := read_table;
  to_csv := write_table
|}.

(** A world with the given files, nothing printed, and a script. *)
Definition world (files : list (string * string)) (script : list string)
  : @World platform :=
  @mkWorld platform (list_to_map files) [] script.

(** [{"k": "v"}] *)
Definition answer (k v : string) : string :=
  "{" +:+ quoted k +:+ ": " +:+ quoted v +:+ "}".
End Fixture.

(** ** Worked examples: files, scripts and states *)

Module Examples.
Import Fixture.

(** A text file of the given lines. *)
Definition lines (ls : list string) : string :=
  foldr (λ l text, l +:+ Text.nl +:+ text) "" ls.

Definition customers_csv : string :=
  lines ["customer_name,address_line_1"; "Full legal name,Street address"].

(** The vendor schema and data of the end-to-end scenario of the
    specification. *)
Definition column_csv : string := lines ["cust_nm,addr1"].
Definition vendor_csv : string := lines ["cust_nm,addr1"; "Acme,1 Main St"].

(** The same with a capitalised header. *)
Definition column_caps_csv : string := lines ["Cust_NM,addr1"].
Definition vendor_caps_csv : string := lines ["Cust_NM,addr1"; "Acme,1 Main St"].


Definition good_answers : list string :=
  [answer "cust_nm" "customer_name"; answer "addr1" "address_line_1"].


Definition base_files : list (string * string) :=
  [("column.csv", column_csv); ("customers.csv", customers_csv);
   ("vendor.csv", vendor_csv)].

Definition caps_files : list (string * string) :=
  [("column.csv", column_caps_csv); ("customers.csv", customers_csv);
   ("vendor.csv", vendor_caps_csv)].


(** The state of Orchestrator.py before the workflow runs, for the
    base files. *)
Definition base_state : @Orchestrator.FieldMappingState :=
  Orchestrator.initial_state "Vendor_A" ["cust_nm"; "addr1"]
    [SStr ""; SStr ""] ["customer_name"; "address_line_1"]
    [SStr "Full legal name"; SStr "Street address"].


(** The target fields and their descriptions, as the prompt lists them. *)
Definition tf : list string := ["customer_name"; "address_line_1"].
Definition td : list string := ["Full legal name"; "Street address"].

(** The state the mapping stage leaves for the base files and the good
    answers, and the mapping artifact it writes. *)
Definition mapped_state : @Orchestrator.FieldMappingState :=
  Orchestrator.set_analysis_complete
    (Orchestrator.set_field_map "Vendor_A"
       [("cust_nm", PyStr "customer_name"); ("addr1", PyStr "address_line_1")]
       base_state).

Definition mappings_csv : string :=
  lines ["vendor_field,target_field"; "cust_nm,customer_name";
         "addr1,address_line_1"].

(** Files of Eureka/orch.py. *)
Definition eureka_vendor_csv : string := lines ["Field Name"; " Cust_NM "].
Definition eureka_customer_csv : string :=
  lines ["Field Name,Business Definition"; "customer_name,Full legal name"].
Definition eureka_files : list (string * string) :=
  [("vendor_input_format.csv", eureka_vendor_csv);
   ("sample.csv", eureka_customer_csv)].

(** A state whose in-memory table already holds the mapping of another
    vendor and an older mapping of this one. *)
Definition two_vendor_state : @Orchestrator.FieldMappingState :=
  Orchestrator.mkState
    [("Vendor_B", [("id", PyStr "identifier")]);
     ("Vendor_A", [("old", PyStr "stale")])]
    false false "Vendor_A" ["cust_nm"; "addr1"] [SStr ""; SStr ""]
    ["customer_name"; "address_line_1"]
    [SStr "Full legal name"; SStr "Street address"] "".


(** The state of Eureka/orch.py before its workflow runs. *)
Definition eureka_state : @Eureka.FieldMappingState :=
  Eureka.mkState [] false "Vendor_A" [SStr " Cust_NM "]
    [(SStr "customer_name", SStr "Full legal name")].

(** A vendor file without the column Field Name, a customer file without
    the column Business Definition, and one with a repeated field name. *)
Definition eureka_no_column_csv : string := lines ["Name"; "cust_nm"].
Definition eureka_no_definition_csv : string := lines ["Field Name"; "customer_name"].

(** The mapping of the scenario as field names and target names. *)
Definition text_mapping : list (string * string) :=
  [("cust_nm", "customer_name"); ("addr1", "address_line_1")].
End Examples.

(** * Properties *)

(** ** Text *)

Module TextFacts.
Import Text.

Ltac by_cases_on_char c :=
  destruct c as [[] [] [] [] [] [] [] []]; vm_compute; reflexivity.

Lemma lower_char_idem c : lower_char (lower_char c) = lower_char c.
Proof. by_cases_on_char c. Qed.

Lemma isspace_lower_char c : isspace (lower_char c) = isspace c.
Proof. by_cases_on_char c. Qed.

Lemma isupper_lower_char c : isupper (lower_char c) = false.
Proof. by_cases_on_char c. Qed.

Lemma lower_idem s : lower (lower s) = lower s.
Proof. induction s as [|c s IH]; simpl; [done|]. by rewrite lower_char_idem, IH. Qed.

Lemma lstrip_lower s : lstrip (lower s) = lower (lstrip s).
Proof.
  induction s as [|c s IH]; simpl; [done|].
  rewrite isspace_lower_char. by destruct (isspace c).
Qed.

Lemma lower_empty s : lower s = EmptyString → s = EmptyString.
Proof. by destruct s. Qed.

Lemma rstrip_lower s : rstrip (lower s) = lower (rstrip s).
Proof.
  induction s as [|c s IH]; simpl; [done|].
  rewrite IH, isspace_lower_char.
  destruct (rstrip s) as [|c' r]; simpl; [by destruct (isspace c)|done].
Qed.

Lemma strip_lower s : strip (lower s) = lower (strip s).
Proof. unfold strip. by rewrite lstrip_lower, rstrip_lower. Qed.

Lemma lstrip_clean_start s : clean_start (lstrip s).
Proof.
  induction s as [|c s IH]; simpl; [done|].
  destruct (isspace c) eqn:E; [done|]. by simpl.
Qed.

Lemma lstrip_of_clean_start s : clean_start s → lstrip s = s.
Proof. destruct s as [|c s]; simpl; [done|]. by intros ->. Qed.

Lemma rstrip_clean_start s : clean_start s → clean_start (rstrip s).
Proof.
  destruct s as [|c s]; simpl; [done|]. intros Hc.
  destruct (rstrip s); [by rewrite Hc|done].
Qed.

Lemma rstrip_idem s : rstrip (rstrip s) = rstrip s.
Proof.
  induction s as [|c s IH]; simpl; [done|].
  destruct (rstrip s) as [|c' r] eqn:E.
  - destruct (isspace c) eqn:Ec; simpl; [done|]. by rewrite Ec.
  - simpl in *. by rewrite IH.
Qed.

Lemma strip_idem s : strip (strip s) = strip s.
Proof.
  unfold strip.
  rewrite (lstrip_of_clean_start (rstrip (lstrip s))).
  - apply rstrip_idem.
  - apply rstrip_clean_start, lstrip_clean_start.
Qed.
End TextFacts.

(** ** Dictionaries *)

Section dict_facts.
Context {K V : Type} `{EqDecision K}.
Implicit Types (d : dict K V) (k : K) (v : V).

Lemma dict_get_set_eq k v d : dict_get k (dict_set k v d) = Some v.
Proof.
  induction d as [|[k' v'] d IH]; simpl.
  - by rewrite decide_True.
  - destruct (decide (k = k')) as [->|Hne]; simpl.
    + by rewrite decide_True.
    + by rewrite decide_False.
Qed.

Lemma dict_get_set_ne k k' v d :
  k ≠ k' → dict_get k' (dict_set k v d) = dict_get k' d.
Proof.
  intros Hne. induction d as [|[k0 v0] d IH]; simpl.
  - by rewrite decide_False.
  - destruct (decide (k = k0)) as [->|Hne0]; simpl.
    + by rewrite !decide_False.
    + by rewrite IH.
Qed.


Lemma dict_get_None_keys k d : dict_get k d = None ↔ k ∉ dict_keys d.
Proof.
  induction d as [|[k' v'] d IH]; simpl.
  - split; [intros _; apply not_elem_of_nil|done].
  - rewrite not_elem_of_cons. destruct (decide (k = k')) as [->|Hne].
    + split; [done|]. by intros [? _].
    + rewrite IH. tauto.
Qed.

Lemma dict_keys_set_new k v d :
  dict_get k d = None → dict_keys (dict_set k v d) = dict_keys d ++ [k].
Proof.
  unfold dict_keys. induction d as [|[k' v'] d IH]; cbn [dict_get dict_set]; [done|].
  destruct (decide (k = k')); [done|]. intros Hg.
  rewrite !fmap_cons, IH by done. done.
Qed.

Lemma dict_keys_set_old k v d :
  is_Some (dict_get k d) → dict_keys (dict_set k v d) = dict_keys d.
Proof.
  unfold dict_keys. induction d as [|[k' v'] d IH]; cbn [dict_get dict_set].
  - by intros [? ?].
  - destruct (decide (k = k')) as [->|Hne]; [done|].
    intros Hg. rewrite !fmap_cons, IH by done. done.
Qed.


Lemma dict_set_length_new k v d :
  dict_get k d = None → length (dict_set k v d) = S (length d).
Proof.
  induction d as [|[k' v'] d IH]; simpl; [done|].
  destruct (decide (k = k')); [done|]. intros Hg. simpl. by rewrite IH.
Qed.

Lemma dict_set_length_old k v d :
  is_Some (dict_get k d) → length (dict_set k v d) = length d.
Proof.
  induction d as [|[k' v'] d IH]; simpl.
  - by intros [? ?].
  - destruct (decide (k = k')); [done|]. intros Hg. simpl. by rewrite IH.
Qed.

Lemma dict_set_NoDup k v d :
  NoDup (dict_keys d) → NoDup (dict_keys (dict_set k v d)).
Proof.
  intros Hnd. destruct (dict_get k d) as [x|] eqn:E.
  - by rewrite dict_keys_set_old by eauto.
  - rewrite dict_keys_set_new by done.
    apply NoDup_app. split_and!; [done| |apply NoDup_singleton].
    intros y Hy ->%list_elem_of_singleton. by apply dict_get_None_keys in E.
Qed.

Lemma dict_set_new k v d : dict_get k d = None → dict_set k v d = d ++ [(k, v)].
Proof.
  induction d as [|[k' v'] d IH]; simpl; [done|].
  destruct (decide (k = k')); [done|]. intros Hg. by rewrite IH.
Qed.

Lemma dict_of_pairs_app acc (pairs : list (K * V)) :
  NoDup (dict_keys acc ++ pairs.*1) →
  foldl (λ d kv, dict_set kv.1 kv.2 d) acc pairs = acc ++ pairs.
Proof.
  revert acc. induction pairs as [|[k v] pairs IH]; intros acc Hnd; simpl.
  - by rewrite app_nil_r.
  - rewrite fmap_cons in Hnd. simpl in Hnd.
    assert (dict_get k acc = None) as Hnew.
    { apply dict_get_None_keys. apply NoDup_app in Hnd as (_ & Hdisj & _).
      intros Hk. apply (Hdisj k Hk), list_elem_of_here. }
    rewrite dict_set_new by done. rewrite IH.
    + by rewrite <-app_assoc.
    + unfold dict_keys in *. rewrite fmap_app, <-app_assoc. done.
  Qed.

(** A list of pairs with pairwise distinct keys is the dictionary it
    builds. *)
Lemma dict_of_pairs_NoDup (pairs : list (K * V)) :
  NoDup pairs.*1 → dict_of_pairs pairs = pairs.
Proof. intros Hnd. unfold dict_of_pairs. by rewrite dict_of_pairs_app. Qed.
End dict_facts.

(** ** Orchestrator.py: how the stages evaluate *)

Module OrchestratorFacts.
Import Orchestrator.
Section facts.
Context `{Platform}.

Ltac unfold_M :=
  unfold mbind, M_bind, mret, M_ret, bind, ret, raise, print, path_exists,
    pd_read_csv, df_to_csv, invoke in *.

(** One pass through the loop body never raises, leaves the files
    alone, and sets the entry the answer yields, if any. *)
Lemma analyze_field_eval tf td f m w :
  ∃ w',
    analyze_field tf td f m w
    = (Ok match outcome f (llm_invoke (llm w) (prompt_for f tf td)).1 with
          | Some t => dict_set f t m
          | None => m
          end, w')
    ∧ fs w' = fs w
    ∧ llm w' = (llm_invoke (llm w) (prompt_for f tf td)).2.
Proof.
  unfold analyze_field, outcome. unfold_M.
  destruct (llm_invoke (llm w) (prompt_for f tf td)) as [content l]; simpl.
  destruct (json_loads content) as [[| | | | | |mapping]|]; simpl; eauto.
  destruct (dict_get f mapping); simpl; eauto.
Qed.

Lemma analyze_loop_eval tf td fields m w :
  ∃ w',
    analyze_loop tf td fields m w
    = (Ok (collect (zip fields (responses tf td fields (llm w))) m), w')
    ∧ fs w' = fs w
    ∧ llm w' = llm_after tf td fields (llm w).
Proof.
  revert m w. induction fields as [|f rest IH]; intros m w; simpl.
  - by exists w.
  - destruct (analyze_field_eval tf td f m w) as (w1 & E1 & Hfs1 & Hllm1).
    unfold mbind, M_bind, bind. rewrite E1.
    destruct (llm_invoke (llm w) (prompt_for f tf td)) as [content l] eqn:El.
    simpl in *.
    destruct (IH (match outcome f content with
                  | Some t => dict_set f t m
                  | None => m
                  end) w1) as (w2 & E2 & Hfs2 & Hllm2).
    exists w2. rewrite E2, Hfs2, Hfs1, Hllm2, Hllm1. done.
Qed.


(** The mapping stage never raises: it returns the state with the
    vendor's mapping and the flag set, and has written the artifact. *)
Lemma analyze_fields_eval state w :
  let fm := collect (calls_of state w) [] in
  ∃ w',
    analyze_fields state w
    = (Ok (set_analysis_complete
             (set_field_map (current_vendor state) fm state)), w')
    ∧ fs w' = <[mapping_file_of (current_vendor state)
                := to_csv (mapping_frame fm)]> (fs w)
    ∧ llm w' = llm_after (target_headers state)
                 (map py_str (target_samples state)) (vendor_headers state)
                 (llm w).
Proof.
  intros fm. unfold analyze_fields, persist.
  destruct (analyze_loop_eval (target_headers state)
              (map py_str (target_samples state)) (vendor_headers state) [] w)
    as (w1 & E1 & Hfs1 & Hllm1).
  unfold_M. rewrite E1. simpl. eexists. split; [reflexivity|].
  simpl. by rewrite Hfs1, Hllm1.
Qed.

(** The workflow runs the mapping stage and hands its result to the
    transform stage. *)
Lemma workflow_invoke state w :
  graph_invoke workflow state w
  = match analyze_fields state w with
    | (Ok state1, w1) => perform_etl state1 w1
    | (Raise e, w1) => (Raise e, w1)
    end.
Proof.
  unfold graph_invoke, workflow. simpl.
  unfold mbind, M_bind, bind, mret, M_ret, ret.
  destruct (analyze_fields state w) as [[state1|e] w1]; [|done].
  destruct (perform_etl state1 w1) as [[state2|e] w2]; done.
Qed.

Lemma load_eval vendor w :
  load vendor w
  = (match fs w !! mapping_file_of vendor with
     | None =>
         Raise (FileNotFoundError
                  ("[Errno 2] No such file or directory: '"
                   +:+ mapping_file_of vendor +:+ "'"))
     | Some text =>
         match read_csv "utf-8" text with
         | Raise e => Raise e
         | Ok mapping_df => mapping_of_frame mapping_df
         end
     end, w).
Proof.
  unfold load, getitem, mapping_of_frame. unfold_M.
  destruct (fs w !! mapping_file_of vendor) as [text|]; [|done].
  destruct (read_csv "utf-8" text) as [df|e]; [|done].
  destruct (label_index "vendor_field" (columns df)); [|done].
  destruct (label_index "target_field" (columns df)); done.
Qed.

(** [perform_etl] computes [transform] on its two input files; it
    writes the output file when that succeeds, and changes nothing
    when it raises. *)
Lemma perform_etl_eval state w :
  perform_etl state w
  = match transform (current_vendor state) (fs w !! vendor_file)
            (fs w !! mapping_file_of (current_vendor state)) with
    | Ok out =>
        (Ok (set_etl_complete (output_file_of (current_vendor state)) state),
         mkWorld
           (<[output_file_of (current_vendor state) := to_csv (as_objects out)]>
              (fs w))
           (stdout w ++ ["ETL completed: Transformed data saved to "
                         +:+ output_file_of (current_vendor state)])
           (llm w))
    | Raise e => (Raise e, w)
    end.
Proof.
  unfold perform_etl, transform.
  unfold mbind at 1, M_bind at 1, bind at 1, path_exists at 1.
  destruct (fs w !! vendor_file) as [src|] eqn:Esrc; simpl; [|done].
  unfold mbind at 1, M_bind at 1, bind at 1, path_exists at 1.
  destruct (fs w !! mapping_file_of (current_vendor state)) as [mtext|] eqn:Emap;
    simpl; [|done].
  unfold mbind at 1, M_bind at 1, bind at 1, pd_read_csv at 1. rewrite Esrc.
  destruct (read_csv "utf-8" src) as [vendor_df|e]; [|done].
  unfold mbind at 1, M_bind at 1, bind at 1. rewrite load_eval, Emap.
  destruct (read_csv "utf-8" mtext) as [mapping_df|e]; [|done].
  destruct (mapping_of_frame mapping_df) as [fm|e]; [|done].
  reflexivity.
Qed.

(** *** File names *)

Lemma length_app_string (a b : string) :
  String.length (a +:+ b) = String.length a + String.length b.
Proof. induction a as [|c a IH]; simpl; [done|]. by rewrite <-IH. Qed.

Lemma mapping_file_not_source vendor : mapping_file_of vendor ≠ vendor_file.
Proof.
  intros E. apply (f_equal String.length) in E.
  unfold mapping_file_of in E. rewrite length_app_string in E. simpl in E. lia.
Qed.

Lemma output_file_not_source vendor : output_file_of vendor ≠ vendor_file.
Proof.
  intros E. apply (f_equal String.length) in E.
  unfold output_file_of in E. rewrite length_app_string in E. simpl in E. lia.
Qed.

Lemma output_file_not_mapping vendor : output_file_of vendor ≠ mapping_file_of vendor.
Proof. intros E. by apply (inj (String.app vendor)) in E. Qed.

(** *** What the loop collects *)


Lemma collect_NoDup calls m :
  NoDup (dict_keys m) → NoDup (dict_keys (collect calls m)).
Proof.
  revert m. induction calls as [|[f c] rest IH]; intros m Hnd; simpl; [done|].
  apply IH. destruct (outcome f c); [by apply dict_set_NoDup|done].
Qed.







(** Reading the schemas changes nothing. *)
Lemma read_csv_schema_eval file_path w :
  read_csv_schema file_path w
  = (match fs w !! file_path with
     | None =>
         Raise (FileNotFoundError
                  ("[Errno 2] No such file or directory: '" +:+ file_path +:+ "'"))
     | Some text =>
         match read_csv "utf-8" text with
         | Raise e => Raise e
         | Ok df =>
             Ok (columns df,
                 if df_empty df then replicate (length (columns df)) (SStr "")
                 else match values df with
                      | row :: _ => row
                      | [] => []
                      end,
                 df)
         end
     end, w).
Proof.
  unfold read_csv_schema. unfold_M.
  destruct (fs w !! file_path) as [text|]; [|done].
  by destruct (read_csv "utf-8" text).
Qed.

Lemma prepare_state_eval vendor_path target_path vendor_name w state w' :
  prepare_state vendor_path target_path vendor_name w = (Ok state, w') →
  ∃ vendor_text vendor_df target_text target_df,
    w' = w
    ∧ fs w !! vendor_path = Some vendor_text
    ∧ read_csv "utf-8" vendor_text = Ok vendor_df
    ∧ fs w !! target_path = Some target_text
    ∧ read_csv "utf-8" target_text = Ok target_df
    ∧ current_vendor state = vendor_name
    ∧ vendor_headers state = map normalize (columns vendor_df)
    ∧ target_headers state = columns target_df
    ∧ field_maps state = []
    ∧ analysis_complete state = false.
Proof.
  unfold prepare_state. unfold mbind, M_bind, bind.
  rewrite read_csv_schema_eval.
  destruct (fs w !! vendor_path) as [vendor_text|]; [|done].
  destruct (read_csv "utf-8" vendor_text) as [vendor_df|] eqn:Ev; [|done].
  rewrite read_csv_schema_eval.
  destruct (fs w !! target_path) as [target_text|]; [|done].
  destruct (read_csv "utf-8" target_text) as [target_df|] eqn:Et; [|done].
  unfold mret, M_ret, ret. intros [= <- <-].
  by exists vendor_text, vendor_df, target_text, target_df.
Qed.
End facts.
End OrchestratorFacts.

(** * The matching loop *)

Section matching.
Import Orchestrator OrchestratorFacts.
Context `{Platform}.



End matching.

(** * Normalisation of the schemas *)

Section normalisation.
Import Orchestrator OrchestratorFacts TextFacts.
Context `{Platform}.

Lemma normalize_idem h : normalize (normalize h) = normalize h.
Proof.
  unfold normalize. by rewrite strip_lower, lower_idem, strip_idem.
Qed.

Lemma normalize_trimmed h : Text.strip (normalize h) = normalize h.
Proof. unfold normalize. by rewrite strip_lower, strip_idem. Qed.

Lemma normalize_lowered h : Text.lower (normalize h) = normalize h.
Proof. unfold normalize. by rewrite lower_idem. Qed.

Lemma read_vendor_schema_eval file_path w :
  Eureka.read_vendor_schema file_path w
  = (match fs w !! file_path with
     | None =>
         Raise (FileNotFoundError
                  ("[Errno 2] No such file or directory: '" +:+ file_path +:+ "'"))
     | Some text =>
         match read_csv "iso-8859-1" text with
         | Raise e => Raise e
         | Ok df =>
             match label_index "Field Name" (columns df) with
             | None => Raise (KeyError "Field Name")
             | Some i => Ok (map (λ row, nth i row NaN) (values df))
             end
         end
     end, w).
Proof.
  unfold Eureka.read_vendor_schema, getitem.
  unfold mbind, M_bind, bind, pd_read_csv.
  destruct (fs w !! file_path) as [text|]; [|done].
  destruct (read_csv "iso-8859-1" text) as [df|]; [|done].
  by destruct (label_index "Field Name" (columns df)).
Qed.

(** C6, amended.  In Orchestrator.py the state handed to the matching
    stage holds the vendor file's headers each stripped of surrounding
    white space and lower-cased, and the target file's headers as they
    were read.  In Eureka/orch.py the vendor field names handed to the
    matching stage are the cells of the Field Name column as they were
    read. *)
Theorem headers_normalized :
  (∀ vendor_path target_path vendor_name w state w',
     prepare_state vendor_path target_path vendor_name w = (Ok state, w') →
     ∃ vendor_text vendor_df target_text target_df,
       fs w !! vendor_path = Some vendor_text
       ∧ read_csv "utf-8" vendor_text = Ok vendor_df
       ∧ fs w !! target_path = Some target_text
       ∧ read_csv "utf-8" target_text = Ok target_df
       ∧ vendor_headers state
         = map (λ h, Text.lower (Text.strip h)) (columns vendor_df)
       ∧ Forall (λ h, Text.strip h = h ∧ Text.lower h = h) (vendor_headers state)
       ∧ target_headers state = columns target_df)
  ∧ (∀ vendor_path customer_path vendor_name w state w',
       Eureka.prepare_state vendor_path customer_path vendor_name w
       = (Ok state, w') →
       ∃ vendor_text vendor_df i,
         fs w !! vendor_path = Some vendor_text
         ∧ read_csv "iso-8859-1" vendor_text = Ok vendor_df
         ∧ label_index "Field Name" (columns vendor_df) = Some i
         ∧ Eureka.vendor_fields state
           = map (λ row, nth i row NaN) (values vendor_df)).
Proof.
  split.
  - intros vendor_path target_path vendor_name w state w' Hprep.
    apply prepare_state_eval in Hprep
      as (vt & vdf & tt & tdf & _ & Hv & Hvr & Ht & Htr & _ & Hvh & Hth & _).
    exists vt, vdf, tt, tdf. split_and!; try done.
    rewrite Hvh. apply Forall_forall. intros h Hh.
    apply list_elem_of_In, in_map_iff in Hh as (raw & <- & _).
    split; [apply normalize_trimmed|apply normalize_lowered].
  - intros vendor_path customer_path vendor_name w state w'.
    unfold Eureka.prepare_state. unfold mbind at 1, M_bind at 1, bind at 1.
    rewrite read_vendor_schema_eval.
    destruct (fs w !! vendor_path) as [vt|]; [|done].
    destruct (read_csv "iso-8859-1" vt) as [vdf|] eqn:Er; [|done].
    destruct (label_index "Field Name" (columns vdf)) as [i|] eqn:Ei; [|done].
    unfold mbind, M_bind, bind.
    destruct (Eureka.read_customer_schema customer_path w) as [[schema|] w1];
      [|done].
    unfold mret, M_ret, ret. intros [= <- <-].
    by exists vt, vdf, i.
Qed.
End normalisation.

(** * The transform stage *)

Section transform_stage.
Import Orchestrator OrchestratorFacts TextFacts.
Context `{Platform}.

Lemma transform_Ok_inv vendor source mapping out :
  transform vendor source mapping = Ok out →
  ∃ source_text mapping_text vendor_df mapping_df field_mapping,
    source = Some source_text
    ∧ mapping = Some mapping_text
    ∧ read_csv "utf-8" source_text = Ok vendor_df
    ∧ read_csv "utf-8" mapping_text = Ok mapping_df
    ∧ mapping_of_frame mapping_df = Ok field_mapping
    ∧ out = rename field_mapping vendor_df.
Proof.
  unfold transform.
  destruct source as [source_text|]; [|done].
  destruct mapping as [mapping_text|]; [|done].
  destruct (read_csv "utf-8" source_text) as [vendor_df|] eqn:Es; [|done].
  destruct (read_csv "utf-8" mapping_text) as [mapping_df|] eqn:Em; [|done].
  destruct (mapping_of_frame mapping_df) as [fm|] eqn:Ef; [|done].
  intros [= <-]. by exists source_text, mapping_text, vendor_df, mapping_df, fm.
Qed.

(** A successful run of [perform_etl], taken apart. *)
Lemma perform_etl_Ok_inv state w state' w' :
  perform_etl state w = (Ok state', w') →
  ∃ source_text vendor_df field_mapping,
    fs w !! vendor_file = Some source_text
    ∧ read_csv "utf-8" source_text = Ok vendor_df
    ∧ load (current_vendor state) w = (Ok field_mapping, w)
    ∧ transform (current_vendor state) (fs w !! vendor_file)
        (fs w !! mapping_file_of (current_vendor state))
      = Ok (rename field_mapping vendor_df)
    ∧ state' = set_etl_complete (output_file_of (current_vendor state)) state
    ∧ fs w'
      = <[output_file_of (current_vendor state)
          := to_csv (as_objects (rename field_mapping vendor_df))]> (fs w)
    ∧ llm w' = llm w.
Proof.
  rewrite perform_etl_eval.
  destruct (transform _ _ _) as [out|] eqn:Et; [|done].
  intros [= <- <-].
  pose proof Et as Et'.
  apply transform_Ok_inv in Et'
    as (st & mt & vdf & mdf & fm & Hs & Hm & Hrs & Hrm & Hfm & ->).
  exists st, vdf, fm. split_and!; try done.
  by rewrite load_eval, Hm, Hrm, Hfm.
Qed.

Lemma rename_columns_lookup fm (df : DataFrame string scalar) i c :
  columns df !! i = Some c →
  columns (rename fm df) !! i
  = Some match dict_get (SStr c) fm with
         | Some t => t
         | None => SStr c
         end.
Proof.
  intros Hc. unfold rename. simpl.
  change (map ?f ?l) with (f <$> l). by rewrite list_lookup_fmap, Hc.
Qed.

Lemma zip_map_same {A B C} (f : A → B) (g : A → C) (l : list A) :
  zip (map f l) (map g l) = map (λ x, (f x, g x)) l.
Proof. induction l as [|x l IH]; simpl; [done|]. by rewrite IH. Qed.

(** What does hold of saving and loading: a mapping of text to text is
    loaded as it was saved whenever pandas reads the cells of the artifact
    back as the text that was written. *)
Lemma persist_load_verbatim vendor (m : dict string string) w :
  NoDup (dict_keys m) →
  read_csv "utf-8" (to_csv (mapping_frame (map (λ kv, (kv.1, PyStr kv.2)) m)))
  = Ok (mkDataFrame ["vendor_field"; "target_field"]
          (map (λ kv, [SStr kv.1; SStr kv.2]) m)) →
  (load vendor (persist vendor (map (λ kv, (kv.1, PyStr kv.2)) m) w).2).1
  = Ok (map (λ kv, (SStr kv.1, SStr kv.2)) m).
Proof.
  intros Hnd Hread. rewrite load_eval. unfold persist, df_to_csv. simpl.
  rewrite lookup_insert_eq, Hread. unfold mapping_of_frame. simpl.
  f_equal. rewrite !map_map. simpl. rewrite zip_map_same.
  apply dict_of_pairs_NoDup.
  change (map ?f ?l) with (f <$> l). rewrite <-list_fmap_compose.
  change (fst ∘ _) with (SStr ∘ (fst : string * string → string)).
  rewrite list_fmap_compose. apply NoDup_fmap_2; [|exact Hnd].
  by intros a b [= ->].
Qed.

(** C2, amended.  When the mapping artifact of the current vendor is
    absent, the transform stage raises a file-not-found error and
    leaves the world as it was, so no output file is written; the error
    is the one about the mapping file whenever the vendor data file
    exists (and the one about the vendor data file otherwise). *)
Theorem transform_without_mapping (state : FieldMappingState) (w : World) :
  fs w !! mapping_file_of (current_vendor state) = None →
  ∃ e,
    perform_etl state w = (Raise e, w)
    ∧ (is_Some (fs w !! vendor_file) →
       e = mapping_file_missing (mapping_file_of (current_vendor state)))
    ∧ (fs w !! vendor_file = None → e = vendor_file_missing).
Proof.
  intros Hm. rewrite perform_etl_eval, Hm. unfold transform.
  destruct (fs w !! vendor_file) as [source_text|].
  - eexists. split; [done|]. split; [done|]. by intros ?.
  - eexists. split; [done|]. split; [|done]. by intros [? ?].
Qed.


(** C8.  The output of the transform stage is a function of the vendor
    data file and the mapping artifact: two runs for the same vendor
    that find the same two files write the same bytes, and running the
    stage again on the files it has just left leaves every file as it
    is. *)
Theorem transform_idempotent (state1 state2 : FieldMappingState)
    (w1 w2 : World) (state1' : FieldMappingState) (w1' : World) :
  current_vendor state1 = current_vendor state2 →
  fs w1 !! vendor_file = fs w2 !! vendor_file →
  fs w1 !! mapping_file_of (current_vendor state1)
  = fs w2 !! mapping_file_of (current_vendor state1) →
  perform_etl state1 w1 = (Ok state1', w1') →
  ∃ state2' w2' text state3 w3,
    perform_etl state2 w2 = (Ok state2', w2')
    ∧ fs w1' !! output_file_of (current_vendor state1) = Some text
    ∧ fs w2' !! output_file_of (current_vendor state1) = Some text
    ∧ transformed_data state2' = transformed_data state1'
    ∧ perform_etl state1' w1' = (Ok state3, w3)
    ∧ fs w3 = fs w1'
    ∧ transformed_data state3 = transformed_data state1'.
Proof.
  intros Hv Hsrc Hmap Hrun.
  apply perform_etl_Ok_inv in Hrun
    as (st & vdf & fm & _ & _ & _ & Ht & -> & Hfs & _).
  pose proof (perform_etl_eval state2 w2) as E2.
  rewrite <-Hv, <-Hsrc, <-Hmap, Ht in E2.
  pose proof (perform_etl_eval
                (set_etl_complete (output_file_of (current_vendor state1)) state1)
                w1') as E3.
  simpl in E3. rewrite Hfs in E3.
  rewrite !lookup_insert_ne in E3
    by (apply output_file_not_source || apply output_file_not_mapping).
  rewrite Ht, insert_insert_eq in E3.
  eexists _, _, _, _, _. split; [exact E2|].
  split_and!; try done.
  - by rewrite Hfs, lookup_insert_eq.
  - simpl. by rewrite lookup_insert_eq.
Qed.
End transform_stage.

(** * The two stages together *)

Section pipeline.
Import Orchestrator OrchestratorFacts TextFacts.
Context `{Platform}.

(** A successful run of the whole script, taken apart: the table
    written is a renaming of the table read from [vendor_file], the
    fixed path of the transform stage. *)
Lemma generate_mapping_template_Ok_inv vendor_path target_path vendor_name
    w out w' :
  generate_mapping_template vendor_path target_path vendor_name w = (Ok out, w') →
  ∃ source_text vendor_df field_mapping,
    fs w !! vendor_file = Some source_text
    ∧ read_csv "utf-8" source_text = Ok vendor_df
    ∧ out = output_file_of vendor_name
    ∧ fs w' !! out
      = Some (to_csv (as_objects (rename field_mapping vendor_df))).
Proof.
  unfold generate_mapping_template. unfold mbind at 1, M_bind at 1, bind at 1.
  destruct (prepare_state vendor_path target_path vendor_name w)
    as [[state|] w0] eqn:Eprep; [|done].
  apply prepare_state_eval in Eprep
    as (_ & _ & _ & _ & -> & _ & _ & _ & _ & Hv & _).
  unfold mbind, M_bind, bind. rewrite workflow_invoke.
  destruct (analyze_fields_eval state w) as (w1 & E1 & Hfs1 & _).
  rewrite E1.
  destruct (perform_etl _ w1) as [[final|] w2] eqn:Eetl; [|done].
  unfold mret, M_ret, ret. intros [= <- <-].
  apply perform_etl_Ok_inv in Eetl
    as (st & vdf & fm & Hs & Hr & _ & _ & -> & Hfs2 & _).
  simpl in *. rewrite Hfs1, lookup_insert_ne in Hs
    by apply mapping_file_not_source.
  exists st, vdf, fm. rewrite Hv in *. split_and!; try done.
  by rewrite Hfs2, lookup_insert_eq.
Qed.


(** C10.  Two runs of the script on the same world that differ only
    in the vendor schema file they are given read the same source table,
    the one in the file named vendor.csv, and write to the same output
    file a renaming of that table. *)
Theorem transform_source_fixed (vendor_path1 vendor_path2 target_path
    vendor_name : string) (w : World) (out1 out2 : string) (w1 w2 : World) :
  generate_mapping_template vendor_path1 target_path vendor_name w = (Ok out1, w1) →
  generate_mapping_template vendor_path2 target_path vendor_name w = (Ok out2, w2) →
  vendor_file = "vendor.csv"
  ∧ ∃ source_text vendor_df field_mapping1 field_mapping2,
      fs w !! "vendor.csv" = Some source_text
      ∧ read_csv "utf-8" source_text = Ok vendor_df
      ∧ out1 = output_file_of vendor_name
      ∧ out2 = output_file_of vendor_name
      ∧ fs w1 !! out1
        = Some (to_csv (as_objects (rename field_mapping1 vendor_df)))
      ∧ fs w2 !! out2
        = Some (to_csv (as_objects (rename field_mapping2 vendor_df))).
Proof.
  intros H1 H2. split; [done|].
  apply generate_mapping_template_Ok_inv in H1
    as (st1 & vdf1 & fm1 & Hs1 & Hr1 & Ho1 & Hw1).
  apply generate_mapping_template_Ok_inv in H2
    as (st2 & vdf2 & fm2 & Hs2 & Hr2 & Ho2 & Hw2).
  assert (st2 = st1) as -> by congruence.
  assert (vdf2 = vdf1) as -> by congruence.
  by exists st1, vdf1, fm1, fm2.
Qed.
End pipeline.

(** * Worked examples *)

Section examples.
Import Orchestrator Fixture Examples.
Local Existing Instance platform.





(** C2 at work: the vendor data file is there, the mapping artifact is
    not; the stage raises the error about the mapping file and the world
    is as before. *)
Lemma transform_without_mapping_witness :
  let w := world base_files [] in
  fs w !! mapping_file_of (current_vendor base_state) = None
  ∧ perform_etl base_state w
    = (Raise (mapping_file_missing "Vendor_A_mappings.csv"), w).
Proof.
  intros w.
  assert (fs w !! mapping_file_of (current_vendor base_state) = None) as Hnone
    by reflexivity.
  split; [exact Hnone|].
  destruct (transform_without_mapping base_state w Hnone) as (e & E & He & _).
  rewrite E. f_equal. f_equal. apply He. by eexists.
Defined.

(** Against C2 as stated: the mapping artifact that the mapping stage
    writes when nothing matched holds the header line and no entry; the
    transform stage loads the empty mapping from it, does not raise, and
    writes the output file, a copy of the source table. *)
Lemma transform_without_mapping_counterexample :
  let w := world [("vendor.csv", vendor_csv);
                  ("Vendor_A_mappings.csv", lines ["vendor_field,target_field"])]
             [] in
  to_csv (mapping_frame []) = lines ["vendor_field,target_field"]
  ∧ (load "Vendor_A" w).1 = Ok []
  ∧ (perform_etl base_state w).1
    = Ok (set_etl_complete "Vendor_A_transformed.csv" base_state)
  ∧ fs (perform_etl base_state w).2 !! "Vendor_A_transformed.csv"
    = Some vendor_csv.
Proof. intros w. split_and!; vm_compute; reflexivity. Qed.


(** C8 at work: the stage run on the base files and run again on what
    it left. *)
Lemma transform_idempotent_witness :
  let w := world (("Vendor_A_mappings.csv", mappings_csv) :: base_files) [] in
  let w' := (perform_etl mapped_state w).2 in
  ∃ state3 w3,
    perform_etl (set_etl_complete "Vendor_A_transformed.csv" mapped_state) w'
    = (Ok state3, w3)
    ∧ fs w3 = fs w'.
Proof.
  intros w w'.
  assert (perform_etl mapped_state w
          = (Ok (set_etl_complete "Vendor_A_transformed.csv" mapped_state), w'))
    as E by (vm_compute; reflexivity).
  destruct (transform_idempotent mapped_state mapped_state w w _ _
              eq_refl eq_refl eq_refl E)
    as (_ & _ & _ & state3 & w3 & _ & _ & _ & _ & E3 & Hfs & _).
  by exists state3, w3.
Defined.

(** The scenario of the specification survives saving and loading. *)
Lemma persist_load_example :
  let m := [("cust_nm", "customer_name"); ("addr1", "address_line_1")] in
  (load "Vendor_A"
     (persist "Vendor_A" (map (λ kv, (kv.1, PyStr kv.2)) m) (world [] [])).2).1
  = Ok [(SStr "cust_nm", SStr "customer_name");
        (SStr "addr1", SStr "address_line_1")].
Proof.
  intros m. apply (persist_load_verbatim "Vendor_A" m).
  - apply (bool_decide_unpack _). exact I.
  - vm_compute. reflexivity.
Qed.

(** C7, the failing input: the mapping of [id] to the target named
    [NA] is written as the row [id,NA], and read back as the mapping of
    [id] to the missing-value marker. *)
Lemma persist_load_NA :
  let w := (persist "Vendor_A" [("id", PyStr "NA")] (world [] [])).2 in
  fs w !! "Vendor_A_mappings.csv"
  = Some (lines ["vendor_field,target_field"; "id,NA"])
  ∧ (load "Vendor_A" w).1 = Ok [(SStr "id", NaN)]
  ∧ [(SStr "id", NaN)] ≠ [(SStr "id", SStr "NA")].
Proof. intros w. split_and!; [vm_compute; reflexivity..|done]. Qed.


(** C10 at work: one run is given the vendor schema file, the other
    the target schema file in its place; both transform the table of
    vendor.csv. *)
Lemma transform_source_fixed_witness :
  let w := world base_files good_answers in
  (generate_mapping_template "column.csv" "customers.csv" "Vendor_A" w).1
  = Ok "Vendor_A_transformed.csv"
  ∧ (generate_mapping_template "customers.csv" "customers.csv" "Vendor_A" w).1
    = Ok "Vendor_A_transformed.csv"
  ∧ ∃ vendor_df field_mapping1 field_mapping2,
      read_csv "utf-8" vendor_csv = Ok vendor_df
      ∧ fs (generate_mapping_template "column.csv" "customers.csv" "Vendor_A" w).2
          !! "Vendor_A_transformed.csv"
        = Some (to_csv (as_objects (rename field_mapping1 vendor_df)))
      ∧ fs (generate_mapping_template "customers.csv" "customers.csv" "Vendor_A" w).2
          !! "Vendor_A_transformed.csv"
        = Some (to_csv (as_objects (rename field_mapping2 vendor_df))).
Proof.
  intros w.
  assert (generate_mapping_template "column.csv" "customers.csv" "Vendor_A" w
          = (Ok "Vendor_A_transformed.csv",
             (generate_mapping_template "column.csv" "customers.csv" "Vendor_A" w).2))
    as E1 by (vm_compute; reflexivity).
  assert (generate_mapping_template "customers.csv" "customers.csv" "Vendor_A" w
          = (Ok "Vendor_A_transformed.csv",
             (generate_mapping_template "customers.csv" "customers.csv" "Vendor_A" w).2))
    as E2 by (vm_compute; reflexivity).
  split; [by rewrite E1|]. split; [by rewrite E2|].
  destruct (transform_source_fixed _ _ _ _ _ _ _ _ _ E1 E2)
    as (_ & st & vdf & fm1 & fm2 & Hs & Hr & _ & _ & H1 & H2).
  vm_compute in Hs. injection Hs as <-.
  by exists vdf, fm1, fm2.
Defined.

(** C6 at work: Orchestrator.py on the schema with the header
    [Cust_NM], Eureka/orch.py on the field name [ Cust_NM ]. *)
Lemma headers_normalized_witness :
  (∃ state,
     (prepare_state "column.csv" "customers.csv" "Vendor_A"
        (world caps_files [])).1 = Ok state
     ∧ vendor_headers state = ["cust_nm"; "addr1"]
     ∧ target_headers state = ["customer_name"; "address_line_1"])
  ∧ (∃ state,
       (Eureka.prepare_state "vendor_input_format.csv" "sample.csv" "Vendor_A"
          (world eureka_files [])).1 = Ok state
       ∧ Eureka.vendor_fields state = [SStr " Cust_NM "]).
Proof.
  split.
  - assert (prepare_state "column.csv" "customers.csv" "Vendor_A"
              (world caps_files [])
            = (Ok base_state, world caps_files [])) as E
      by (vm_compute; reflexivity).
    exists base_state. split; [by rewrite E|].
    destruct (proj1 headers_normalized _ _ _ _ _ _ E)
      as (vt & vdf & tt & tdf & Hv & Hvr & Ht & Htr & Hvh & _ & Hth).
    vm_compute in Hv. injection Hv as <-. vm_compute in Hvr. injection Hvr as <-.
    vm_compute in Ht. injection Ht as <-. vm_compute in Htr. injection Htr as <-.
    split; [exact Hvh|exact Hth].
  - pose (state := Eureka.mkState [] false "Vendor_A" [SStr " Cust_NM "]
                     [(SStr "customer_name", SStr "Full legal name")]).
    assert (Eureka.prepare_state "vendor_input_format.csv" "sample.csv" "Vendor_A"
              (world eureka_files [])
            = (Ok state, world eureka_files [])) as E
      by (vm_compute; reflexivity).
    exists state. split; [by rewrite E|].
    destruct (proj2 headers_normalized _ _ _ _ _ _ E)
      as (vt & vdf & i & Hv & Hvr & Hi & Hvf).
    vm_compute in Hv. injection Hv as <-. vm_compute in Hvr. injection Hvr as <-.
    vm_compute in Hi. injection Hi as <-. exact Hvf.
Defined.

(** Against C6 as stated: Eureka/orch.py hands the field name
    [ Cust_NM ] to the matching stage as it was read, with its
    surrounding blanks and capitals. *)
Lemma headers_normalized_counterexample :
  let w := world eureka_files [] in
  (Eureka.prepare_state "vendor_input_format.csv" "sample.csv" "Vendor_A" w).1
  = Ok (Eureka.mkState [] false "Vendor_A" [SStr " Cust_NM "]
          [(SStr "customer_name", SStr "Full legal name")])
  ∧ normalize " Cust_NM " = "cust_nm"
  ∧ SStr " Cust_NM " ≠ SStr (normalize " Cust_NM ").
Proof. intros w. split_and!; [vm_compute; reflexivity..|]. vm_compute. discriminate. Qed.
End examples.

(** * Further properties of the mapping stage *)

Section dict_of_pairs_facts.
Context {K V : Type} `{EqDecision K}.





End dict_of_pairs_facts.

Section mapping_stage.
Import Orchestrator OrchestratorFacts.
Context `{Platform}.



(** One pass through the loop body, with everything it does to the
    world. *)
Lemma analyze_field_world tf td f m w :
  analyze_field tf td f m w
  = let r := llm_invoke (llm w) (prompt_for f tf td) in
    (Ok match outcome f r.1 with
        | Some t => dict_set f t m
        | None => m
        end,
     mkWorld (fs w) (stdout w ++ diagnostics [(f, r.1)]) r.2).
Proof.
  unfold analyze_field, outcome, diagnostics, invalid_json_line.
  unfold mbind, M_bind, mret, M_ret, bind, ret, print, invoke.
  destruct (llm_invoke (llm w) (prompt_for f tf td)) as [content l]; simpl.
  rewrite filter_cons, filter_nil. simpl.
  destruct (json_loads content) as [v|] eqn:Ej.
  - rewrite decide_False by done. simpl. rewrite app_nil_r.
    destruct v as [| | | | | |mapping]; try done.
    by destruct (dict_get f mapping).
  - rewrite decide_True by done. done.
Qed.

Lemma diagnostics_cons call calls :
  diagnostics (call :: calls) = diagnostics [call] ++ diagnostics calls.
Proof.
  unfold diagnostics. rewrite !filter_cons, filter_nil.
  by destruct (decide (json_loads call.2 = None)).
Qed.

(** The whole loop, with everything it does to the world. *)
Lemma analyze_loop_world tf td fields m w :
  analyze_loop tf td fields m w
  = let calls := zip fields (responses tf td fields (llm w)) in
    (Ok (collect calls m),
     mkWorld (fs w) (stdout w ++ diagnostics calls) (llm_after tf td fields (llm w))).
Proof.
  revert m w. induction fields as [|f rest IH]; intros m w; simpl.
  - unfold mret, M_ret, ret, diagnostics. rewrite filter_nil. simpl.
    rewrite app_nil_r. by destruct w.
  - unfold mbind, M_bind, bind. rewrite analyze_field_world. simpl.
    rewrite IH. simpl.
    destruct (llm_invoke (llm w) (prompt_for f tf td)) as [content l]. simpl.
    rewrite (diagnostics_cons (f, content) (zip rest (responses tf td rest l))).
    by rewrite app_assoc.
Qed.

(** The mapping stage, with everything it does to the state and the
    world. *)
Lemma analyze_fields_world state w :
  analyze_fields state w
  = let calls := calls_of state w in
    let vendor := current_vendor state in
    (Ok (set_analysis_complete (set_field_map vendor (collect calls []) state)),
     mkWorld
       (<[mapping_file_of vendor := to_csv (mapping_frame (collect calls []))]> (fs w))
       (stdout w ++ diagnostics calls
        ++ ["Mapping template saved: " +:+ mapping_file_of vendor])
       (llm_after (target_headers state) (map py_str (target_samples state))
          (vendor_headers state) (llm w))).
Proof.
  unfold analyze_fields, persist, calls_of.
  unfold mbind at 1, M_bind at 1, bind at 1. rewrite analyze_loop_world. simpl.
  unfold mbind, M_bind, bind, df_to_csv, print, mret, M_ret, ret. simpl.
  by rewrite <-app_assoc.
Qed.




(** X4.  The mapping stage replaces the entry of the current vendor in
    the in-memory table of mappings and keeps the entries of all other
    vendors; apart from that table and the mapping-complete flag the state
    is returned as it was given. *)
Theorem analyze_fields_state (state : FieldMappingState) (w : World) :
  ∃ state1 w1,
    analyze_fields state w = (Ok state1, w1)
    ∧ (∀ vendor, vendor ≠ current_vendor state →
                 dict_get vendor (field_maps state1)
                 = dict_get vendor (field_maps state))
    ∧ length (field_maps state1)
      = (if dict_get (current_vendor state) (field_maps state) is Some _
         then length (field_maps state)
         else S (length (field_maps state)))
    ∧ current_vendor state1 = current_vendor state
    ∧ vendor_headers state1 = vendor_headers state
    ∧ vendor_samples state1 = vendor_samples state
    ∧ target_headers state1 = target_headers state
    ∧ target_samples state1 = target_samples state
    ∧ etl_complete state1 = etl_complete state
    ∧ transformed_data state1 = transformed_data state.
Proof.
  rewrite analyze_fields_world. simpl. eexists _, _. split; [reflexivity|].
  simpl. split_and!; try done.
  - intros vendor Hne. apply dict_get_set_ne. congruence.
  - destruct (dict_get (current_vendor state) (field_maps state)) eqn:E.
    + apply dict_set_length_old. eauto.
    + by apply dict_set_length_new.
Qed.
End mapping_stage.

(** * Further properties of the transform stage *)

Section transform_more.
Import Orchestrator OrchestratorFacts TextFacts.
Context `{Platform}.

Lemma label_index_None {L} `{EqDecision L} (l : L) cols :
  label_index l cols = None ↔ l ∉ cols.
Proof.
  induction cols as [|c cols IH]; simpl.
  - split; [intros _; apply not_elem_of_nil|done].
  - rewrite not_elem_of_cons. destruct (decide (l = c)) as [->|Hne].
    + split; [done|]. by intros [? _].
    + destruct (label_index l cols); simpl.
      * split; [done|]. intros [_ Hl]. by apply IH in Hl.
      * split; [|done]. intros _. split; [done|]. by apply IH.
Qed.

(** X5.  The transform stage is all or nothing: whenever it raises,
    whatever the exception, the world is as it was before the call: no
    output file is written and nothing is printed. *)
Theorem perform_etl_failure_atomic (state : FieldMappingState) (w : World)
    (e : exn) (w' : World) :
  perform_etl state w = (Raise e, w') → w' = w.
Proof.
  rewrite perform_etl_eval. destruct (transform _ _ _); [done|]. by intros [= _ <-].
Qed.


(** X7.  When both files are there and readable but the mapping table
    has no column named vendor_field, the transform stage raises
    KeyError for vendor_field; when it has that column but none named
    target_field, KeyError for target_field.  In both cases nothing is
    written. *)
Theorem perform_etl_missing_column (state : FieldMappingState) (w : World)
    (source_text mapping_text : string) (vendor_df mapping_df : DataFrame string scalar) :
  fs w !! vendor_file = Some source_text →
  read_csv "utf-8" source_text = Ok vendor_df →
  fs w !! mapping_file_of (current_vendor state) = Some mapping_text →
  read_csv "utf-8" mapping_text = Ok mapping_df →
  ("vendor_field" ∉ columns mapping_df →
   perform_etl state w = (Raise (KeyError "vendor_field"), w))
  ∧ ("vendor_field" ∈ columns mapping_df →
     "target_field" ∉ columns mapping_df →
     perform_etl state w = (Raise (KeyError "target_field"), w)).
Proof.
  intros Hs Hrs Hm Hrm. rewrite perform_etl_eval, Hs, Hm. unfold transform.
  rewrite Hrs, Hrm. unfold mapping_of_frame. split.
  - intros Hv%label_index_None. by rewrite Hv.
  - intros Hv Ht%label_index_None.
    destruct (label_index "vendor_field" (columns mapping_df)) eqn:E.
    + by rewrite Ht.
    + by apply label_index_None in E.
Qed.

End transform_more.

(** * Further properties of the run as a whole *)

Section run_more.
Import Orchestrator OrchestratorFacts TextFacts.
Context `{Platform}.

Lemma string_app_inj_tail (a b s : string) : a +:+ s = b +:+ s → a = b.
Proof.
  revert b. induction a as [|c a IH]; intros b E.
  - apply (f_equal String.length) in E. rewrite !length_app_string in E.
    destruct b; [done|]. simpl in E. lia.
  - destruct b as [|c' b].
    + apply (f_equal String.length) in E. simpl in E.
      rewrite !length_app_string in E. simpl in E. lia.
    + simpl in E. injection E as -> E. f_equal. by apply IH.
Qed.

Lemma output_file_not_any_mapping (v v' : string) :
  output_file_of v ≠ mapping_file_of v'.
Proof.
  unfold output_file_of, mapping_file_of. revert v'.
  induction v as [|c v IH]; intros v' E.
  - destruct v' as [|c1 [|c2 [|c3 [|c4 v']]]]; simpl in E; try discriminate E.
    apply (f_equal String.length) in E. simpl in E.
    rewrite !length_app_string in E. simpl in E. lia.
  - destruct v' as [|c' v'].
    + apply (f_equal String.length) in E. simpl in E.
      rewrite !length_app_string in E. simpl in E. lia.
    + simpl in E. injection E as _ E. by apply IH in E.
Qed.

(** X9.  The stages keep out of each other's files and out of the files
    of other vendors: the transform stage changes neither the vendor data
    file, nor the mapping artifact of any vendor, nor the output file of
    another vendor; the mapping stage changes neither the vendor data
    file, nor the output file of any vendor, nor the mapping artifact of
    another vendor. *)
Theorem stages_keep_other_files (state : FieldMappingState) (w : World)
    (vendor : string) :
  (fs (perform_etl state w).2 !! vendor_file = fs w !! vendor_file
   ∧ fs (perform_etl state w).2 !! mapping_file_of vendor
     = fs w !! mapping_file_of vendor
   ∧ (vendor ≠ current_vendor state →
      fs (perform_etl state w).2 !! output_file_of vendor
      = fs w !! output_file_of vendor))
  ∧ (fs (analyze_fields state w).2 !! vendor_file = fs w !! vendor_file
     ∧ fs (analyze_fields state w).2 !! output_file_of vendor
       = fs w !! output_file_of vendor
     ∧ (vendor ≠ current_vendor state →
        fs (analyze_fields state w).2 !! mapping_file_of vendor
        = fs w !! mapping_file_of vendor)).
Proof.
  split.
  - rewrite perform_etl_eval. destruct (transform _ _ _) as [out|]; [|done].
    simpl. split_and!.
    + rewrite lookup_insert_ne; [done|]. apply output_file_not_source.
    + rewrite lookup_insert_ne; [done|]. apply output_file_not_any_mapping.
    + intros Hne. rewrite lookup_insert_ne; [done|].
      intros E. by apply string_app_inj_tail in E.
  - rewrite analyze_fields_world. simpl. split_and!.
    + rewrite lookup_insert_ne; [done|]. apply mapping_file_not_source.
    + rewrite lookup_insert_ne; [done|].
      intros E. by apply (output_file_not_any_mapping vendor (current_vendor state)).
    + intros Hne. rewrite lookup_insert_ne; [done|].
      intros E. by apply string_app_inj_tail in E.
Qed.

Lemma prepare_state_world vendor_path target_path vendor_name w :
  (prepare_state vendor_path target_path vendor_name w).2 = w.
Proof.
  unfold prepare_state. unfold mbind, M_bind, bind.
  rewrite read_csv_schema_eval.
  destruct (fs w !! vendor_path) as [vt|]; [|done].
  destruct (read_csv "utf-8" vt) as [vdf|]; [|done].
  rewrite read_csv_schema_eval.
  destruct (fs w !! target_path) as [tt|]; [|done].
  by destruct (read_csv "utf-8" tt).
Qed.

(** X10.  When reading a schema fails the script raises that exception
    before anything else has happened: the chat model has not been called
    and no file has been written.  A missing vendor schema file, or a
    missing target schema file beside a readable vendor schema, gives
    FileNotFoundError. *)
Theorem schema_failure_before_matching (vendor_path target_path vendor_name : string)
    (w : World) :
  (∀ e w', prepare_state vendor_path target_path vendor_name w = (Raise e, w') →
           generate_mapping_template vendor_path target_path vendor_name w
           = (Raise e, w))
  ∧ (fs w !! vendor_path = None →
     ∃ msg, generate_mapping_template vendor_path target_path vendor_name w
            = (Raise (FileNotFoundError msg), w))
  ∧ (∀ vendor_text vendor_df,
       fs w !! vendor_path = Some vendor_text →
       read_csv "utf-8" vendor_text = Ok vendor_df →
       fs w !! target_path = None →
       ∃ msg, generate_mapping_template vendor_path target_path vendor_name w
              = (Raise (FileNotFoundError msg), w)).
Proof.
  assert (∀ e w', prepare_state vendor_path target_path vendor_name w = (Raise e, w') →
                  generate_mapping_template vendor_path target_path vendor_name w
                  = (Raise e, w)) as Hgen.
  { intros e w' E. pose proof (prepare_state_world vendor_path target_path vendor_name w) as Hw.
    rewrite E in Hw. simpl in Hw. subst w'.
    unfold generate_mapping_template. unfold mbind at 1, M_bind at 1, bind at 1.
    by rewrite E. }
  split; [exact Hgen|]. split.
  - intros Hv. eexists. apply (Hgen _ w).
    unfold prepare_state. unfold mbind, M_bind, bind.
    by rewrite read_csv_schema_eval, Hv.
  - intros vt vdf Hv Hr Ht. eexists. apply (Hgen _ w).
    unfold prepare_state. unfold mbind, M_bind, bind.
    by rewrite read_csv_schema_eval, Hv, Hr, read_csv_schema_eval, Ht.
Qed.


(** X12.  A successful run of the workflow ends with both completion
    flags set, the name of the output file recorded, the vendor's mapping
    in the in-memory table, and both artifacts on disk; it has printed the
    lines of the mapping stage followed by the line of the transform
    stage. *)
Theorem workflow_final_state (state : FieldMappingState) (w : World)
    (final : FieldMappingState) (w' : World) :
  graph_invoke workflow state w = (Ok final, w') →
  analysis_complete final = true
  ∧ etl_complete final = true
  ∧ transformed_data final = output_file_of (current_vendor state)
  ∧ current_vendor final = current_vendor state
  ∧ dict_get (current_vendor state) (field_maps final)
    = Some (collect (calls_of state w) [])
  ∧ fs w' !! mapping_file_of (current_vendor state)
    = Some (to_csv (mapping_frame (collect (calls_of state w) [])))
  ∧ is_Some (fs w' !! output_file_of (current_vendor state))
  ∧ stdout w'
    = stdout w ++ diagnostics (calls_of state w)
      ++ ["Mapping template saved: " +:+ mapping_file_of (current_vendor state);
          "ETL completed: Transformed data saved to "
          +:+ output_file_of (current_vendor state)].
Proof.
  rewrite workflow_invoke, analyze_fields_world. simpl.
  rewrite perform_etl_eval. destruct (transform _ _ _) as [out|]; [|done].
  intros [= <- <-]. simpl. split_and!; try done.
  - apply dict_get_set_eq.
  - rewrite lookup_insert_ne by apply output_file_not_mapping.
    by rewrite lookup_insert_eq.
  - rewrite lookup_insert_eq. eauto.
  - by rewrite <-!app_assoc.
Qed.

(** X13.  Normalising a header twice is the same as normalising it once,
    and the headers that normalisation leaves as they are are exactly
    those without surrounding white space and without upper-case
    letters. *)
Theorem normalize_fixed_points (h : string) :
  normalize (normalize h) = normalize h
  ∧ (normalize h = h ↔ Text.strip h = h ∧ Text.lower h = h).
Proof.
  split; [apply normalize_idem|]. split.
  - intros E. split.
    + rewrite <-E at 1. rewrite normalize_trimmed. done.
    + rewrite <-E at 1. rewrite normalize_lowered. done.
  - intros [Es El]. unfold normalize. by rewrite Es, El.
Qed.
End run_more.

(** * Properties of Eureka/orch.py *)

Section eureka_facts.
Import OrchestratorFacts.
Context `{Platform}.

(** The matching stage of Eureka/orch.py, with everything it does. *)
Lemma eureka_analyze_fields_eval (state : Eureka.FieldMappingState) (w : World) :
  Eureka.analyze_fields state w
  = let r := llm_invoke (llm w) (Eureka.prompt_for state) in
    match json_loads r.1 with
    | Some (PyDict mappings) =>
        (Ok (Eureka.mkState mappings true (Eureka.current_vendor state)
               (Eureka.vendor_fields state) (Eureka.target_descriptions state)),
         mkWorld
           (<[Eureka.mapping_file_of (Eureka.current_vendor state)
              := to_csv (DataFrame_of_items "Vendor Field" "Customer Field" mappings)]>
              (fs w))
           (stdout w ++ ["Mapping template saved: "
                         +:+ Eureka.mapping_file_of (Eureka.current_vendor state)])
           r.2)
    | Some _ =>
        (Raise (ValueError "Response is not a valid dictionary."),
         mkWorld (fs w) (stdout w) r.2)
    | None =>
        (Raise (ValueError ("Invalid JSON response from LLM: " +:+ r.1)),
         mkWorld (fs w) (stdout w) r.2)
    end.
Proof.
  unfold Eureka.analyze_fields.
  unfold mbind, M_bind, mret, M_ret, bind, ret, raise, print, invoke, df_to_csv.
  destruct (llm_invoke (llm w) (Eureka.prompt_for state)) as [content l]. simpl.
  by destruct (json_loads content) as [[| | | | | |mappings]|].
Qed.

Lemma eureka_workflow_invoke (state : Eureka.FieldMappingState) (w : World) :
  graph_invoke Eureka.workflow state w = Eureka.analyze_fields state w.
Proof.
  unfold graph_invoke, Eureka.workflow. simpl.
  unfold mbind, M_bind, bind, mret, M_ret, ret.
  by destruct (Eureka.analyze_fields state w) as [[state1|e] w1].
Qed.

Lemma eureka_getitem_eval (df : DataFrame string scalar) (label : string) (w : World) :
  getitem df label w
  = (match label_index label (columns df) with
     | None => Raise (KeyError label)
     | Some i => Ok (map (λ row, nth i row NaN) (values df))
     end, w).
Proof. unfold getitem. by destruct (label_index label (columns df)). Qed.

Lemma read_customer_schema_eval file_path w :
  Eureka.read_customer_schema file_path w
  = (match fs w !! file_path with
     | None =>
         Raise (FileNotFoundError
                  ("[Errno 2] No such file or directory: '" +:+ file_path +:+ "'"))
     | Some text =>
         match read_csv "iso-8859-1" text with
         | Raise e => Raise e
         | Ok df =>
             match label_index "Field Name" (columns df) with
             | None => Raise (KeyError "Field Name")
             | Some i =>
                 match label_index "Business Definition" (columns df) with
                 | None => Raise (KeyError "Business Definition")
                 | Some j =>
                     Ok (dict_of_pairs
                           (map (λ row, (nth i row NaN, nth j row NaN)) (values df)))
                 end
             end
         end
     end, w).
Proof.
  unfold Eureka.read_customer_schema.
  unfold mbind, M_bind, bind, pd_read_csv.
  destruct (fs w !! file_path) as [text|]; [|done].
  destruct (read_csv "iso-8859-1" text) as [df|]; [|done].
  rewrite eureka_getitem_eval.
  destruct (label_index "Field Name" (columns df)) as [i|]; [|done].
  rewrite eureka_getitem_eval.
  destruct (label_index "Business Definition" (columns df)) as [j|]; [|done].
  unfold mret, M_ret, ret. by rewrite zip_map_same.
Qed.

Lemma eureka_prepare_state_world vendor_path customer_path vendor_name w :
  (Eureka.prepare_state vendor_path customer_path vendor_name w).2 = w.
Proof.
  unfold Eureka.prepare_state. unfold mbind, M_bind, bind.
  rewrite read_vendor_schema_eval.
  destruct (fs w !! vendor_path) as [vt|]; [|done].
  destruct (read_csv "iso-8859-1" vt) as [vdf|]; [|done].
  destruct (label_index "Field Name" (columns vdf)); [|done].
  rewrite read_customer_schema_eval.
  destruct (fs w !! customer_path) as [ct|]; [|done].
  destruct (read_csv "iso-8859-1" ct) as [cdf|]; [|done].
  destruct (label_index "Field Name" (columns cdf)); [|done].
  by destruct (label_index "Business Definition" (columns cdf)).
Qed.


(** X15.  When the script of Eureka/orch.py succeeds, the name it
    returns is the path of the mapping file it has written, which holds
    the dictionary the chat model answered under the headers Vendor Field
    and Customer Field; no other file has been changed. *)
Theorem eureka_returns_written_file (vendor_path customer_path vendor_name : string)
    (w : World) (out : string) (w' : World) :
  Eureka.generate_mapping_template vendor_path customer_path vendor_name w
  = (Ok out, w') →
  ∃ state mappings,
    Eureka.prepare_state vendor_path customer_path vendor_name w = (Ok state, w)
    ∧ json_loads (llm_invoke (llm w) (Eureka.prompt_for state)).1
      = Some (PyDict mappings)
    ∧ out = Eureka.mapping_file_of vendor_name
    ∧ fs w' !! out
      = Some (to_csv (DataFrame_of_items "Vendor Field" "Customer Field" mappings))
    ∧ ∀ path, path ≠ out → fs w' !! path = fs w !! path.
Proof.
  unfold Eureka.generate_mapping_template.
  unfold mbind at 1, M_bind at 1, bind at 1.
  pose proof (eureka_prepare_state_world vendor_path customer_path vendor_name w) as Hw.
  destruct (Eureka.prepare_state vendor_path customer_path vendor_name w)
    as [[state|] w0] eqn:Eprep; [|done].
  simpl in Hw. subst w0.
  assert (Eureka.current_vendor state = vendor_name) as Hv.
  { revert Eprep. unfold Eureka.prepare_state. unfold mbind, M_bind, bind.
    destruct (Eureka.read_vendor_schema vendor_path w) as [[vf|] w1]; [|done].
    destruct (Eureka.read_customer_schema customer_path w1) as [[td|] w2]; [|done].
    unfold mret, M_ret, ret. by intros [= <- _]. }
  unfold mbind, M_bind, bind. rewrite eureka_workflow_invoke.
  rewrite eureka_analyze_fields_eval. simpl.
  destruct (json_loads _) as [[| | | | | |mappings]|] eqn:Ej; try done.
  unfold mret, M_ret, ret. intros [= <- <-]. simpl.
  exists state, mappings. rewrite Hv. split_and!; try done.
  - by rewrite lookup_insert_eq.
  - intros path Hne. rewrite lookup_insert_ne; [done|].
    unfold Eureka.mapping_file_of. congruence.
Qed.

(** X16.  When reading a schema fails, the script of Eureka/orch.py
    raises that exception before the chat model is called or a file
    written.  A vendor file without a column Field Name gives KeyError
    for Field Name; a customer file with that column but without a column
    Business Definition gives KeyError for Business Definition. *)
Theorem eureka_schema_failure (vendor_path customer_path vendor_name : string)
    (w : World) :
  (∀ e w', Eureka.prepare_state vendor_path customer_path vendor_name w
           = (Raise e, w') →
           Eureka.generate_mapping_template vendor_path customer_path vendor_name w
           = (Raise e, w))
  ∧ (∀ vendor_text vendor_df,
       fs w !! vendor_path = Some vendor_text →
       read_csv "iso-8859-1" vendor_text = Ok vendor_df →
       "Field Name" ∉ columns vendor_df →
       Eureka.generate_mapping_template vendor_path customer_path vendor_name w
       = (Raise (KeyError "Field Name"), w))
  ∧ (∀ vendor_text vendor_df customer_text customer_df,
       fs w !! vendor_path = Some vendor_text →
       read_csv "iso-8859-1" vendor_text = Ok vendor_df →
       "Field Name" ∈ columns vendor_df →
       fs w !! customer_path = Some customer_text →
       read_csv "iso-8859-1" customer_text = Ok customer_df →
       "Field Name" ∈ columns customer_df →
       "Business Definition" ∉ columns customer_df →
       Eureka.generate_mapping_template vendor_path customer_path vendor_name w
       = (Raise (KeyError "Business Definition"), w)).
Proof.
  assert (∀ e w', Eureka.prepare_state vendor_path customer_path vendor_name w
                  = (Raise e, w') →
                  Eureka.generate_mapping_template vendor_path customer_path vendor_name w
                  = (Raise e, w)) as Hgen.
  { intros e w' E.
    pose proof (eureka_prepare_state_world vendor_path customer_path vendor_name w) as Hw.
    rewrite E in Hw. simpl in Hw. subst w'.
    unfold Eureka.generate_mapping_template.
    unfold mbind at 1, M_bind at 1, bind at 1. by rewrite E. }
  split; [exact Hgen|]. split.
  - intros vt vdf Hv Hr Hcol%label_index_None. apply (Hgen _ w).
    unfold Eureka.prepare_state. unfold mbind, M_bind, bind.
    by rewrite read_vendor_schema_eval, Hv, Hr, Hcol.
  - intros vt vdf ct cdf Hv Hr Hcol Hc Hcr Hcol1 Hcol2%label_index_None.
    apply (Hgen _ w).
    unfold Eureka.prepare_state. unfold mbind, M_bind, bind.
    rewrite read_vendor_schema_eval, Hv, Hr.
    destruct (label_index "Field Name" (columns vdf)) eqn:E1;
      [|by apply label_index_None in E1].
    rewrite read_customer_schema_eval, Hc, Hcr.
    destruct (label_index "Field Name" (columns cdf)) eqn:E2;
      [|by apply label_index_None in E2].
    by rewrite Hcol2.
Qed.

End eureka_facts.

(** * Saving, loading and transforming together *)

Section stored_mapping.
Import Orchestrator OrchestratorFacts.
Context `{Platform}.

Lemma dict_get_text_pairs (c : string) (m : dict string string) :
  dict_get (SStr c) (map (λ kv, (SStr kv.1, SStr kv.2)) m) = SStr <$> dict_get c m.
Proof.
  induction m as [|[k v] m IH]; simpl; [done|].
  destruct (decide (c = k)) as [->|Hne].
  - by rewrite decide_True.
  - rewrite decide_False by congruence. done.
Qed.

(** X18.  Saving a mapping of field names to target names and then
    running the transform stage renames by exactly that mapping, provided
    the field names are pairwise distinct and pandas reads the cells of
    the artifact back as the text that was written: each source column
    whose label is a key gets the target as its label, every other column
    keeps its label, and the rows are those of the source. *)
Theorem stored_mapping_drives_transform (state : FieldMappingState) (w : World)
    (m : dict string string) (source_text : string)
    (vendor_df : DataFrame string scalar) :
  NoDup (dict_keys m) →
  read_csv "utf-8" (to_csv (mapping_frame (map (λ kv, (kv.1, PyStr kv.2)) m)))
  = Ok (mkDataFrame ["vendor_field"; "target_field"]
          (map (λ kv, [SStr kv.1; SStr kv.2]) m)) →
  fs w !! vendor_file = Some source_text →
  read_csv "utf-8" source_text = Ok vendor_df →
  let w1 := (persist (current_vendor state) (map (λ kv, (kv.1, PyStr kv.2)) m) w).2 in
  ∃ state' w' out,
    perform_etl state w1 = (Ok state', w')
    ∧ fs w' !! output_file_of (current_vendor state) = Some (to_csv (as_objects out))
    ∧ values out = values vendor_df
    ∧ ∀ i c, columns vendor_df !! i = Some c →
             columns out !! i = Some (SStr (default c (dict_get c m))).
Proof.
  intros Hnd Hread Hs Hrs w1. subst w1. rewrite perform_etl_eval.
  unfold persist, df_to_csv. simpl.
  rewrite lookup_insert_ne by apply mapping_file_not_source.
  rewrite lookup_insert_eq, Hs. unfold transform. rewrite Hrs, Hread.
  unfold mapping_of_frame. simpl. rewrite !map_map. simpl. rewrite zip_map_same.
  rewrite dict_of_pairs_NoDup.
  - eexists _, _, _. split; [reflexivity|]. simpl.
    split; [by rewrite lookup_insert_eq|]. split; [done|].
    intros i c Hc. rewrite (rename_columns_lookup _ _ _ _ Hc), dict_get_text_pairs.
    by destruct (dict_get c m).
  - change (map ?f ?l) with (f <$> l). rewrite <-list_fmap_compose.
    change (fst ∘ _) with (SStr ∘ (fst : string * string → string)).
    rewrite list_fmap_compose. apply NoDup_fmap_2; [|exact Hnd].
    by intros a b [= ->].
Qed.
End stored_mapping.

(** * Counting entries, and the sample row *)

Section counting.
Import Orchestrator OrchestratorFacts.
Context `{Platform}.






End counting.

(** * Further worked examples *)

Section more_examples.
Import Orchestrator Fixture Examples.
Local Existing Instance platform.

Ltac differ := let E := fresh in intros E; vm_compute in E; discriminate E.



(** X4 at work: the mapping of Vendor_B stays, that of Vendor_A is
    replaced. *)
Lemma analyze_fields_state_witness :
  let w := world base_files good_answers in
  ∃ state1 w1,
    analyze_fields two_vendor_state w = (Ok state1, w1)
    ∧ dict_get "Vendor_B" (field_maps state1) = Some [("id", PyStr "identifier")]
    ∧ length (field_maps state1) = 2.
Proof.
  intros w.
  destruct (analyze_fields_state two_vendor_state w)
    as (state1 & w1 & E & Hother & Hlen & _).
  exists state1, w1. split; [exact E|]. split; [|exact Hlen].
  rewrite (Hother "Vendor_B"); [reflexivity|differ].
Defined.

(** X5 at work: no mapping artifact, the stage raises and the world is
    the same. *)
Lemma perform_etl_failure_atomic_witness :
  let w := world base_files [] in
  (perform_etl base_state w).1 = Raise (mapping_file_missing "Vendor_A_mappings.csv")
  ∧ (perform_etl base_state w).2 = w.
Proof.
  intros w.
  assert (perform_etl base_state w
          = (Raise (mapping_file_missing "Vendor_A_mappings.csv"),
             (perform_etl base_state w).2)) as E by (vm_compute; reflexivity).
  split; [by rewrite E|].
  exact (perform_etl_failure_atomic base_state w _ _ E).
Defined.


(** X7 at work: the mapping file was written by Eureka/orch.py for the
    same vendor, with its own two headers; the transform stage of
    Orchestrator.py raises KeyError for vendor_field. *)
Lemma perform_etl_missing_column_witness :
  let w0 := world [("vendor.csv", vendor_csv)] [answer "cust_nm" "customer_name"] in
  let w := (Eureka.analyze_fields eureka_state w0).2 in
  fs w !! "Vendor_A_mappings.csv"
  = Some (lines ["Vendor Field,Customer Field"; "cust_nm,customer_name"])
  ∧ perform_etl base_state w = (Raise (KeyError "vendor_field"), w).
Proof.
  intros w0 w. split; [reflexivity|].
  refine (proj1 (perform_etl_missing_column base_state w vendor_csv
                   (lines ["Vendor Field,Customer Field"; "cust_nm,customer_name"])
                   (mkDataFrame ["cust_nm"; "addr1"] [[SStr "Acme"; SStr "1 Main St"]])
                   (mkDataFrame ["Vendor Field"; "Customer Field"]
                      [[SStr "cust_nm"; SStr "customer_name"]])
                   eq_refl eq_refl eq_refl eq_refl) _).
  apply (bool_decide_unpack _). exact I.
Defined.


(** X9 at work: neither stage, run for Vendor_A, touches the mapping
    artifact of Vendor_B. *)
Lemma stages_keep_other_files_witness :
  let w := world (("Vendor_B_mappings.csv", "kept")
                  :: ("Vendor_A_mappings.csv", mappings_csv) :: base_files)
             good_answers in
  fs (perform_etl mapped_state w).2 !! "Vendor_B_mappings.csv" = Some "kept"
  ∧ fs (analyze_fields base_state w).2 !! "Vendor_B_mappings.csv" = Some "kept".
Proof.
  intros w. split.
  - destruct (stages_keep_other_files mapped_state w "Vendor_B") as [(_ & Hm & _) _].
    exact Hm.
  - destruct (stages_keep_other_files base_state w "Vendor_B") as [_ (_ & _ & Hm)].
    apply Hm. differ.
Defined.

(** X10 at work: no schema file at all. *)
Lemma schema_failure_before_matching_witness :
  let w := world [] good_answers in
  ∃ msg, generate_mapping_template "column.csv" "customers.csv" "Vendor_A" w
         = (Raise (FileNotFoundError msg), w).
Proof.
  intros w.
  exact (proj1 (proj2 (schema_failure_before_matching "column.csv" "customers.csv"
                         "Vendor_A" w)) eq_refl).
Defined.


(** X12 at work: the scenario of the specification run to its end. *)
Lemma workflow_final_state_witness :
  let w := world base_files good_answers in
  ∃ final w',
    graph_invoke workflow base_state w = (Ok final, w')
    ∧ analysis_complete final = true
    ∧ etl_complete final = true
    ∧ transformed_data final = "Vendor_A_transformed.csv"
    ∧ stdout w' = ["Mapping template saved: Vendor_A_mappings.csv";
                   "ETL completed: Transformed data saved to Vendor_A_transformed.csv"].
Proof.
  intros w.
  assert (graph_invoke workflow base_state w
          = (Ok (set_etl_complete "Vendor_A_transformed.csv" mapped_state),
             (graph_invoke workflow base_state w).2)) as E
    by (vm_compute; reflexivity).
  eexists _, _. split; [exact E|].
  destruct (workflow_final_state base_state w _ _ E)
    as (Ha & He & Ht & _ & _ & _ & _ & Hout).
  split; [exact Ha|]. split; [exact He|]. split; [exact Ht|exact Hout].
Defined.

(** X13 at work: a header in normal form, and one that is not. *)
Lemma normalize_fixed_points_witness :
  normalize "cust_nm" = "cust_nm"
  ∧ Text.strip (normalize " Cust_NM ") = normalize " Cust_NM ".
Proof.
  split.
  - exact (proj2 (proj2 (normalize_fixed_points "cust_nm")) (conj eq_refl eq_refl)).
  - exact (proj1 (proj1 (proj2 (normalize_fixed_points (normalize " Cust_NM ")))
                    (proj1 (normalize_fixed_points " Cust_NM ")))).
Defined.

(** X15 at work: the script of Eureka/orch.py on its two schema files. *)
Lemma eureka_returns_written_file_witness :
  let w := world eureka_files [answer "cust_nm" "customer_name"] in
  let r := Eureka.generate_mapping_template "vendor_input_format.csv" "sample.csv"
             "Vendor_A" w in
  r.1 = Ok "Vendor_A_mappings.csv"
  ∧ fs r.2 !! "Vendor_A_mappings.csv"
    = Some (lines ["Vendor Field,Customer Field"; "cust_nm,customer_name"])
  ∧ fs r.2 !! "sample.csv" = Some eureka_customer_csv.
Proof.
  intros w r.
  assert (Eureka.generate_mapping_template "vendor_input_format.csv" "sample.csv"
            "Vendor_A" w = (Ok "Vendor_A_mappings.csv", r.2)) as E
    by (vm_compute; reflexivity).
  split; [unfold r; by rewrite E|].
  destruct (eureka_returns_written_file _ _ _ _ _ _ E)
    as (state & mappings & Hprep & Hj & _ & Hfile & Hother).
  vm_compute in Hprep. injection Hprep as <-.
  vm_compute in Hj. injection Hj as <-.
  split; [exact Hfile|].
  rewrite (Hother "sample.csv"); [reflexivity|differ].
Defined.

(** X16 at work: a vendor file whose only column is called Name, and a
    customer file without definitions. *)
Lemma eureka_schema_failure_witness :
  (let w := world [("vendor_input_format.csv", eureka_no_column_csv);
                   ("sample.csv", eureka_customer_csv)] [] in
   Eureka.generate_mapping_template "vendor_input_format.csv" "sample.csv"
     "Vendor_A" w = (Raise (KeyError "Field Name"), w))
  ∧ (let w := world [("vendor_input_format.csv", eureka_vendor_csv);
                     ("sample.csv", eureka_no_definition_csv)] [] in
     Eureka.generate_mapping_template "vendor_input_format.csv" "sample.csv"
       "Vendor_A" w = (Raise (KeyError "Business Definition"), w)).
Proof.
  split.
  - intros w.
    refine (proj1 (proj2 (eureka_schema_failure "vendor_input_format.csv"
                            "sample.csv" "Vendor_A" w))
              eureka_no_column_csv (mkDataFrame ["Name"] [[SStr "cust_nm"]])
              eq_refl eq_refl _).
    apply (bool_decide_unpack _). exact I.
  - intros w.
    refine (proj2 (proj2 (eureka_schema_failure "vendor_input_format.csv"
                            "sample.csv" "Vendor_A" w))
              eureka_vendor_csv (mkDataFrame ["Field Name"] [[SStr " Cust_NM "]])
              eureka_no_definition_csv
              (mkDataFrame ["Field Name"] [[SStr "customer_name"]])
              eq_refl eq_refl _ eq_refl eq_refl _ _);
      apply (bool_decide_unpack _); exact I.
Defined.


(** X18 at work: the mapping of the scenario, saved and then applied to
    the vendor data. *)
Lemma stored_mapping_drives_transform_witness :
  let w := world base_files [] in
  let w1 := (persist "Vendor_A" (map (λ kv, (kv.1, PyStr kv.2)) text_mapping) w).2 in
  ∃ state' w' out,
    perform_etl base_state w1 = (Ok state', w')
    ∧ fs w' !! "Vendor_A_transformed.csv" = Some (to_csv (as_objects out))
    ∧ columns out !! 0 = Some (SStr "customer_name")
    ∧ columns out !! 1 = Some (SStr "address_line_1").
Proof.
  intros w w1.
  destruct (stored_mapping_drives_transform base_state w text_mapping vendor_csv
              (mkDataFrame ["cust_nm"; "addr1"] [[SStr "Acme"; SStr "1 Main St"]]))
    as (state' & w' & out & E & Hfile & _ & Hcols).
  - apply (bool_decide_unpack _). exact I.
  - reflexivity.
  - reflexivity.
  - reflexivity.
  - exists state', w', out. split; [exact E|]. split; [exact Hfile|].
    split; [exact (Hcols 0 "cust_nm" eq_refl)|exact (Hcols 1 "addr1" eq_refl)].
Defined.


End more_examples.
